(** * The katib-ui operator (charm.py): a shallow embedding

    The charm is a handful of event handlers that run on top of three
    libraries which are not part of the repository: the [ops] framework
    (leadership, unit status, pod spec, configuration, relation data), the
    [oci_image] resource and the [serialized_data_interface] negotiation.
    Their answers are the inputs of a handler (record [Host]); what a handler
    does to the outside is recorded in a [World]: the unit status, the pod
    spec handed to the platform, the relation data bag, and the ordered log
    of every call that left the charm.

    Python values are kept as Python has them: dictionaries written as
    literals are insertion-ordered lists of pairs, the mappings received from
    the libraries are finite maps whose subscript raises [KeyError] on a
    missing key, and exceptions travel through an error-and-state monad with
    an explicit [try_except].  A library call raises only the exceptions the
    charm catches from it ([NoVersionsListed] and [NoCompatibleVersions] from
    the negotiation, [OCIImageResourceError] from the image resource); the
    other calls (leadership query, status, pod spec, relation data,
    [send_data]) return. *)

From Stdlib Require Import ZArith String Ascii List DecimalString DecimalPos DecimalZ.
From stdpp Require Import base option list strings gmap.

#[local] Set Warnings "-register-all".

Local Open Scope string_scope.
Local Open Scope Z_scope.

(** ** Python values *)

Inductive pyval : Type :=
| PNone
| PBool (b : bool)
| PInt (z : Z)
| PStr (s : string)
| PList (items : list pyval)
| PDict (items : list (string * pyval)).

(** A configuration option of the host is a scalar (int, string or boolean
    options; float options are left out). *)
Inductive scalar : Type :=
| SInt (z : Z)
| SStr (s : string)
| SBool (b : bool).

Definition pyval_of_scalar (v : scalar) : pyval :=
  match v with
  | SInt z => PInt z
  | SStr s => PStr s
  | SBool b => PBool b
  end.

(** [str(z)] for a Python int: decimal digits, a leading minus sign for
    negative numbers. *)
Definition str_int (z : Z) : string := NilZero.string_of_int (Z.to_int z).

(** What an f-string replacement field [{v}] prints for a scalar. *)
Definition format_scalar (v : scalar) : string :=
  match v with
  | SInt z => str_int z
  | SStr s => s
  | SBool true => "True"
  | SBool false => "False"
  end.

(** Subscript of a dictionary literal: the first pair with the key. *)
Fixpoint dict_get (k : string) (items : list (string * pyval)) : option pyval :=
  match items with
  | [] => None
  | (k', v) :: rest => if String.eqb k k' then Some v else dict_get k rest
  end.

Definition py_get (k : string) (v : pyval) : option pyval :=
  match v with
  | PDict items => dict_get k items
  | _ => None
  end.

(** ** json.dumps with its default arguments

    Strings are over the code points 0..255; [ensure_ascii] escapes every
    character outside the printable ASCII range as [\u00xx]. *)

Definition dquote : ascii := "034"%char.
Definition backslash : ascii := "092"%char.

Definition hex_digit (n : N) : ascii :=
  ascii_of_N (if (n <? 10)%N then 48 + n else 87 + n)%N.

Definition escape_char (c : ascii) : string :=
  let n := N_of_ascii c in
  if Ascii.eqb c dquote then String backslash (String dquote "")
  else if Ascii.eqb c backslash then String backslash (String backslash "")
  else if (n =? 8)%N then String backslash "b"
  else if (n =? 12)%N then String backslash "f"
  else if (n =? 10)%N then String backslash "n"
  else if (n =? 13)%N then String backslash "r"
  else if (n =? 9)%N then String backslash "t"
  else if ((32 <=? n) && (n <=? 126))%N then String c ""
  else String backslash
         ("u00" ++ String (hex_digit (n / 16)) (String (hex_digit (n mod 16)) "")).

Fixpoint escape_body (s : string) : string :=
  match s with
  | EmptyString => ""
  | String c rest => escape_char c ++ escape_body rest
  end.

Definition encode_basestring_ascii (s : string) : string :=
  String dquote (escape_body s ++ String dquote "").

Fixpoint join (sep : string) (parts : list string) : string :=
  match parts with
  | [] => ""
  | [p] => p
  | p :: rest => p ++ sep ++ join sep rest
  end.

Fixpoint dumps (v : pyval) : string :=
  match v with
  | PNone => "null"
  | PBool true => "true"
  | PBool false => "false"
  | PInt z => str_int z
  | PStr s => encode_basestring_ascii s
  | PList items => "[" ++ join ", " (List.map dumps items) ++ "]"
  | PDict items =>
      "{" ++ join ", "
               (List.map (fun kv => encode_basestring_ascii (fst kv) ++ ": " ++ dumps (snd kv))
                         items)
          ++ "}"
  end.

(** ** Statuses and exceptions *)

Inductive StatusType : Type :=
| ActiveStatus
| BlockedStatus
| MaintenanceStatus
| WaitingStatus.

(** A status object: its class and its message.  Calling a status class
    [status_type(msg)] builds [Build_Status status_type msg]; [ActiveStatus()]
    has the empty message. *)
Record Status : Type := { status_class : StatusType; message : string }.

Definition new_status (t : StatusType) (msg : string) : Status :=
  {| status_class := t; message := msg |}.

(** The two attributes of an [OCIImageResourceError] that the charm reads. *)
Record OCIImageResourceError : Type :=
  { status_type : StatusType; status : Status }.

Inductive exn : Type :=
| CheckFailed (msg : string) (cf_status_type : StatusType) (cf_status : Status)
| ImageResourceError (e : OCIImageResourceError)
| NoVersionsListed (str_err : string)
| NoCompatibleVersions (str_err : string)
| KeyError (key : string).

(** [CheckFailed.__init__]: the message, the status class, and the status
    built from both. *)
Definition CheckFailed_init (msg : string) (t : StatusType) : exn :=
  CheckFailed msg t (new_status t msg).

(** ** The host: what the libraries answer *)

Record SerializedDataInterface : Type := { endpoint : string }.

Inductive Negotiation : Type :=
| Negotiated (interfaces : gmap string (option SerializedDataInterface))
| RaisesNoVersionsListed (str_err : string)
| RaisesNoCompatibleVersions (str_err : string).

Inductive FetchResult : Type :=
| Fetched (image_details : pyval)
| FetchFails (e : OCIImageResourceError).

Record Host : Type :=
  { leader : bool;
    negotiation : Negotiation;
    (** the answer of the n-th call of [image.fetch()], counted over the
        life of the world *)
    resource : nat -> FetchResult;
    config : gmap string scalar;
    app_name : string;
    model_name : string }.

(** ** The world: what the charm leaves behind *)

Inductive Effect : Type :=
| IsLeader (answer : bool)
| GetInterfaces (answer : Negotiation)
| Fetch (answer : FetchResult)
| SendData (interface : SerializedDataInterface) (data : pyval)
| SetStatus (s : Status)
| SetSpec (spec : pyval)
| RelationUpdate (relation_id : nat) (new : gmap string string).

Record World : Type :=
  { unit_status : Status;
    pod_spec : option pyval;
    fetch_calls : nat;
    relation_data : gmap nat (gmap string string);
    log : list Effect }.

Definition record (e : Effect) (w : World) : World :=
  {| unit_status := unit_status w;
     pod_spec := pod_spec w;
     fetch_calls := fetch_calls w;
     relation_data := relation_data w;
     log := log w ++ [e] |}.

(** ** Exceptions and state *)

Inductive outcome (A : Type) : Type :=
| Returns (a : A)
| Raises (e : exn).
Arguments Returns {A} a.
Arguments Raises {A} e.

Definition M (A : Type) : Type := World -> outcome A * World.

Definition ret {A} (a : A) : M A := fun w => (Returns a, w).
Definition raise {A} (e : exn) : M A := fun w => (Raises e, w).
Definition bind {A B} (m : M A) (k : A -> M B) : M B :=
  fun w =>
    match m w with
    | (Returns a, w') => k a w'
    | (Raises e, w') => (Raises e, w')
    end.

(** [try: body except ...]: the handler says which exceptions it catches. *)
Definition try_except {A} (body : M A) (handler : exn -> option (M A)) : M A :=
  fun w =>
    match body w with
    | (Returns a, w') => (Returns a, w')
    | (Raises e, w') =>
        match handler e with
        | Some recover => recover w'
        | None => (Raises e, w')
        end
    end.

Declare Scope py_scope.
Delimit Scope py_scope with py.
Notation "'let*' x ':=' m 'in' k" := (bind m (fun x => k))
  (at level 10, x name, m at level 100, k at level 200) : py_scope.
Notation "m ';;;' k" := (bind m (fun _ => k))
  (at level 100, k at level 200, right associativity) : py_scope.
Local Open Scope py_scope.

(** ** The calls that leave the charm *)

Definition is_leader (h : Host) : M bool :=
  fun w => (Returns (leader h), record (IsLeader (leader h)) w).

Definition get_interfaces (h : Host)
  : M (gmap string (option SerializedDataInterface)) :=
  fun w =>
    let w' := record (GetInterfaces (negotiation h)) w in
    match negotiation h with
    | Negotiated interfaces => (Returns interfaces, w')
    | RaisesNoVersionsListed s => (Raises (NoVersionsListed s), w')
    | RaisesNoCompatibleVersions s => (Raises (NoCompatibleVersions s), w')
    end.

Definition image_fetch (h : Host) : M pyval :=
  fun w =>
    let answer := resource h (fetch_calls w) in
    let w' :=
      {| unit_status := unit_status w;
         pod_spec := pod_spec w;
         fetch_calls := S (fetch_calls w);
         relation_data := relation_data w;
         log := log w ++ [Fetch answer] |} in
    match answer with
    | Fetched image_details => (Returns image_details, w')
    | FetchFails e => (Raises (ImageResourceError e), w')
    end.

(** [interface.send_data(data)].  The library stores [data] in the bag of
    the interface's own relation; that store is kept as the [SendData] entry
    of the log, not in [relation_data], which holds the bags the charm writes
    itself through [relation.data[app]]. *)
Definition send_data (i : SerializedDataInterface) (data : pyval) : M unit :=
  fun w => (Returns tt, record (SendData i data) w).

Definition set_status (s : Status) : M unit :=
  fun w =>
    (Returns tt,
     {| unit_status := s;
        pod_spec := pod_spec w;
        fetch_calls := fetch_calls w;
        relation_data := relation_data w;
        log := log w ++ [SetStatus s] |}).

Definition set_spec (spec : pyval) : M unit :=
  fun w =>
    (Returns tt,
     {| unit_status := unit_status w;
        pod_spec := Some spec;
        fetch_calls := fetch_calls w;
        relation_data := relation_data w;
        log := log w ++ [SetSpec spec] |}).

(** [relation.data[app]]: the bag of the local application in a relation,
    empty until something is written. *)
Definition local_bag (w : World) (relation_id : nat) : gmap string string :=
  default ∅ (relation_data w !! relation_id).

(** [relation.data[app].update(new)]: the keys of [new] overwrite the bag
    of the local application in that relation. *)
Definition relation_data_update (relation_id : nat) (new : gmap string string)
  : M unit :=
  fun w =>
    (Returns tt,
     {| unit_status := unit_status w;
        pod_spec := pod_spec w;
        fetch_calls := fetch_calls w;
        relation_data :=
          <[relation_id := new ∪ local_bag w relation_id]> (relation_data w);
        log := log w ++ [RelationUpdate relation_id new] |}).

(** Subscripts of the mappings handed over by the libraries. *)
Definition config_getitem (h : Host) (key : string) : M scalar :=
  match config h !! key with
  | Some v => ret v
  | None => raise (KeyError key)
  end.

Definition interfaces_getitem
  (interfaces : gmap string (option SerializedDataInterface)) (key : string)
  : M (option SerializedDataInterface) :=
  match interfaces !! key with
  | Some v => ret v
  | None => raise (KeyError key)
  end.

(** ** The operator *)

(** [Operator._check_leader]. *)
Definition _check_leader (h : Host) : M unit :=
  let* is_leader_ := is_leader h in
  if negb is_leader_
  then raise (CheckFailed_init "Waiting for leadership" WaitingStatus)
  else ret tt.

(** [Operator._get_interfaces]: [CheckFailed(err, ...)] keeps [str(err)]. *)
Definition _get_interfaces (h : Host)
  : M (gmap string (option SerializedDataInterface)) :=
  try_except (get_interfaces h)
    (fun err =>
       match err with
       | NoVersionsListed s => Some (raise (CheckFailed_init s WaitingStatus))
       | NoCompatibleVersions s => Some (raise (CheckFailed_init s BlockedStatus))
       | _ => None
       end).

(** [Operator._check_image_details]. *)
Definition _check_image_details (h : Host) : M pyval :=
  try_except (image_fetch h)
    (fun err =>
       match err with
       | ImageResourceError e =>
           Some (raise (CheckFailed_init (message (status e)) (status_type e)))
       | _ => None
       end).

(** The dictionary sent over the ingress relation. *)
Definition ingress_data (h : Host) (port : scalar) : pyval :=
  PDict [("prefix", PStr "/katib/");
         ("service", PStr (app_name h));
         ("port", pyval_of_scalar port)].

(** [Operator._configure_ingress]: an interface object is truthy, [None]
    is not; the dictionary is built before [send_data] is called. *)
Definition _configure_ingress (h : Host)
  (interfaces : gmap string (option SerializedDataInterface)) : M unit :=
  let* ingress := interfaces_getitem interfaces "ingress" in
  match ingress with
  | Some interface =>
      let* port := config_getitem h "port" in
      send_data interface (ingress_data h port)
  | None => ret tt
  end.

(** The dictionary handed to [pod.set_spec]; [port_arg] and [port] are the
    two readings of [config["port"]], in the order the literal evaluates
    them. *)
Definition pod_spec_dict (h : Host) (port_arg port : scalar) (image_details : pyval)
  : pyval :=
    (PDict
       [("version", PInt 3);
        ("serviceAccount",
         PDict
           [("roles",
             PList
               [PDict
                  [("global", PBool true);
                   ("rules",
                    PList
                      [PDict
                         [("apiGroups", PList [PStr ""]);
                          ("resources", PList [PStr "configmaps"; PStr "namespaces"]);
                          ("verbs", PList [PStr "*"])];
                       PDict
                         [("apiGroups", PList [PStr "kubeflow.org"]);
                          ("resources",
                           PList [PStr "experiments"; PStr "trials"; PStr "suggestions"]);
                          ("verbs", PList [PStr "*"])]])]])]);
        ("containers",
         PList
           [PDict
              [("name", PStr "katib-ui");
               ("command", PList [PStr "./katib-ui"]);
               ("args", PList [PStr ("--port=" ++ format_scalar port_arg)]);
               ("imageDetails", image_details);
               ("ports",
                PList
                  [PDict [("name", PStr "http");
                          ("containerPort", pyval_of_scalar port)]]);
               ("envConfig", PDict [("KATIB_CORE_NAMESPACE", PStr (model_name h))])]])]).

Definition build_pod_spec (h : Host) (image_details : pyval) : M pyval :=
  let* port_arg := config_getitem h "port" in
  let* port := config_getitem h "port" in
  ret (pod_spec_dict h port_arg port image_details).

(** [Operator.set_pod_spec].  The first [try] yields the interfaces when the
    three checks pass and [None] when its handler has set the status and the
    method returns; the second [try] does the same for the image details. *)
Definition set_pod_spec (h : Host) : M unit :=
  let* checked :=
    try_except
      (_check_leader h;;;
       let* interfaces := _get_interfaces h in
       let* image_details := _check_image_details h in
       ret (Some interfaces))
      (fun err =>
         match err with
         | CheckFailed _ _ check_failed_status =>
             Some (set_status check_failed_status;;; ret None)
         | _ => None
         end) in
  match checked with
  | None => ret tt
  | Some interfaces =>
      _configure_ingress h interfaces;;;
      set_status (new_status MaintenanceStatus "Setting pod spec");;;
      let* fetched :=
        try_except
          (let* image_details := image_fetch h in ret (Some image_details))
          (fun err =>
             match err with
             | ImageResourceError e => Some (set_status (status e);;; ret None)
             | _ => None
             end) in
      match fetched with
      | None => ret tt
      | Some image_details =>
          let* spec := build_pod_spec h image_details in
          set_spec spec;;;
          set_status (new_status ActiveStatus "")
      end
  end.

(** The sidebar handlers; the event carries the relation it is about. *)
Record RelationEvent : Type := { relation : nat }.

Definition sidebar_item (h : Host) : pyval :=
  PList
    [PDict
       [("app", PStr (app_name h));
        ("position", PInt 5);
        ("type", PStr "item");
        ("link", PStr "/katib/");
        ("text", PStr "Experiments (AutoML)");
        ("icon", PStr "kubeflow:katib")]].

(** [Operator._on_sidebar_relation_joined] and
    [Operator._on_sidebar_relation_departed]. *)
Definition _on_sidebar_relation_joined (h : Host) (event : RelationEvent) : M unit :=
  let* is_leader_ := is_leader h in
  if negb is_leader_ then ret tt
  else relation_data_update (relation event) {[ "config" := dumps (sidebar_item h) ]}.

Definition _on_sidebar_relation_departed (h : Host) (event : RelationEvent) : M unit :=
  let* is_leader_ := is_leader h in
  if negb is_leader_ then ret tt
  else relation_data_update (relation event) {[ "config" := dumps (PList []) ]}.

(** ** What a run adds to the log *)

(** The effects of running [m] from [w]: the part of the log written by the
    run, oldest first. *)
Definition effects {A} (m : M A) (w : World) : list Effect :=
  drop (length (log w)) (log (snd (m w))).

(** The answers [image.fetch()] gave, in order. *)
Definition fetch_answers (l : list Effect) : list FetchResult :=
  omap (fun e => match e with Fetch answer => Some answer | _ => None end) l.

(** The world after a run from [w]: the status last set, the pod spec in
    force, [n] more fetches, and [l] appended to the log. *)
Definition after (w : World) (s : Status) (spec : option pyval) (n : nat)
  (l : list Effect) : World :=
  {| unit_status := s;
     pod_spec := spec;
     fetch_calls := n + fetch_calls w;
     relation_data := relation_data w;
     log := (log w ++ l)%list |}.

Definition waiting_for_leadership : Status :=
  new_status WaitingStatus "Waiting for leadership".

Definition setting_pod_spec : Status :=
  new_status MaintenanceStatus "Setting pod spec".

(** What the ingress step logs when it goes through. *)
Definition ingress_effects (h : Host) (ingress : option SerializedDataInterface)
  : list Effect :=
  match ingress, config h !! "port" with
  | Some interface, Some port => [SendData interface (ingress_data h port)]
  | _, _ => []
  end.

(** The ingress step goes through: the subscripts it evaluates find their
    keys. *)
Definition ingress_step_passes (h : Host)
  (interfaces : gmap string (option SerializedDataInterface)) : Prop :=
  exists ingress,
    interfaces !! "ingress" = Some ingress /\
    (ingress = None \/ is_Some (config h !! "port")).

(** The nine ways through [set_pod_spec], each with the answers that select
    it and the result it ends in. *)
Inductive Run (h : Host) (w : World) : outcome unit * World -> Prop :=
| Run_not_leader :
    leader h = false ->
    Run h w
      (Returns tt,
       after w waiting_for_leadership (pod_spec w) 0
         [IsLeader false; SetStatus waiting_for_leadership])
| Run_no_versions_listed (s : string) :
    leader h = true ->
    negotiation h = RaisesNoVersionsListed s ->
    Run h w
      (Returns tt,
       after w (new_status WaitingStatus s) (pod_spec w) 0
         [IsLeader true; GetInterfaces (RaisesNoVersionsListed s);
          SetStatus (new_status WaitingStatus s)])
| Run_no_compatible_versions (s : string) :
    leader h = true ->
    negotiation h = RaisesNoCompatibleVersions s ->
    Run h w
      (Returns tt,
       after w (new_status BlockedStatus s) (pod_spec w) 0
         [IsLeader true; GetInterfaces (RaisesNoCompatibleVersions s);
          SetStatus (new_status BlockedStatus s)])
| Run_precheck_fetch_fails interfaces (e : OCIImageResourceError) :
    leader h = true ->
    negotiation h = Negotiated interfaces ->
    resource h (fetch_calls w) = FetchFails e ->
    Run h w
      (Returns tt,
       after w (new_status (status_type e) (message (status e))) (pod_spec w) 1
         [IsLeader true; GetInterfaces (Negotiated interfaces); Fetch (FetchFails e);
          SetStatus (new_status (status_type e) (message (status e)))])
| Run_ingress_key_missing interfaces (d0 : pyval) :
    leader h = true ->
    negotiation h = Negotiated interfaces ->
    resource h (fetch_calls w) = Fetched d0 ->
    interfaces !! "ingress" = None ->
    Run h w
      (Raises (KeyError "ingress"),
       after w (unit_status w) (pod_spec w) 1
         [IsLeader true; GetInterfaces (Negotiated interfaces); Fetch (Fetched d0)])
| Run_ingress_port_missing interfaces (d0 : pyval) (interface : SerializedDataInterface) :
    leader h = true ->
    negotiation h = Negotiated interfaces ->
    resource h (fetch_calls w) = Fetched d0 ->
    interfaces !! "ingress" = Some (Some interface) ->
    config h !! "port" = None ->
    Run h w
      (Raises (KeyError "port"),
       after w (unit_status w) (pod_spec w) 1
         [IsLeader true; GetInterfaces (Negotiated interfaces); Fetch (Fetched d0)])
| Run_refetch_fails interfaces (d0 : pyval) ingress (e : OCIImageResourceError) :
    leader h = true ->
    negotiation h = Negotiated interfaces ->
    resource h (fetch_calls w) = Fetched d0 ->
    interfaces !! "ingress" = Some ingress ->
    ingress = None \/ is_Some (config h !! "port") ->
    resource h (S (fetch_calls w)) = FetchFails e ->
    Run h w
      (Returns tt,
       after w (status e) (pod_spec w) 2
         ([IsLeader true; GetInterfaces (Negotiated interfaces); Fetch (Fetched d0)]
            ++ ingress_effects h ingress
            ++ [SetStatus setting_pod_spec; Fetch (FetchFails e);
                SetStatus (status e)])%list)
| Run_publish_port_missing interfaces (d0 d1 : pyval) :
    leader h = true ->
    negotiation h = Negotiated interfaces ->
    resource h (fetch_calls w) = Fetched d0 ->
    interfaces !! "ingress" = Some None ->
    resource h (S (fetch_calls w)) = Fetched d1 ->
    config h !! "port" = None ->
    Run h w
      (Raises (KeyError "port"),
       after w setting_pod_spec (pod_spec w) 2
         [IsLeader true; GetInterfaces (Negotiated interfaces); Fetch (Fetched d0);
          SetStatus setting_pod_spec; Fetch (Fetched d1)])
| Run_published interfaces (d0 d1 : pyval) ingress (port : scalar) :
    leader h = true ->
    negotiation h = Negotiated interfaces ->
    resource h (fetch_calls w) = Fetched d0 ->
    interfaces !! "ingress" = Some ingress ->
    resource h (S (fetch_calls w)) = Fetched d1 ->
    config h !! "port" = Some port ->
    Run h w
      (Returns tt,
       after w (new_status ActiveStatus "") (Some (pod_spec_dict h port port d1)) 2
         ([IsLeader true; GetInterfaces (Negotiated interfaces); Fetch (Fetched d0)]
            ++ ingress_effects h ingress
            ++ [SetStatus setting_pod_spec; Fetch (Fetched d1);
                SetSpec (pod_spec_dict h port port d1);
                SetStatus (new_status ActiveStatus "")])%list).

(** ** Sample deployments *)

Definition sample_image : pyval :=
  PDict [("imagePath", PStr "registry/katib-ui:v1");
         ("username", PStr "");
         ("password", PStr "")].

Definition newer_image : pyval :=
  PDict [("imagePath", PStr "registry/katib-ui:v2");
         ("username", PStr "");
         ("password", PStr "")].

Definition ingress_interface : SerializedDataInterface := {| endpoint := "ingress" |}.

Definition missing_resource : OCIImageResourceError :=
  {| status_type := BlockedStatus;
     status := new_status BlockedStatus "Missing resource: oci-image" |}.

Definition make_host (is_leader_ : bool) (n : Negotiation) (r : nat -> FetchResult)
  (c : gmap string scalar) : Host :=
  {| leader := is_leader_;
     negotiation := n;
     resource := r;
     config := c;
     app_name := "katib-ui";
     model_name := "kubeflow" |}.

(** Leader, ingress related, image uploaded, port 8080. *)
Definition sample_host : Host :=
  make_host true (Negotiated {[ "ingress" := Some ingress_interface ]})
    (fun _ => Fetched sample_image) {[ "port" := SInt 8080 ]}.

(** The same deployment seen from a unit that is not the leader. *)
Definition follower_host : Host :=
  make_host false (Negotiated {[ "ingress" := Some ingress_interface ]})
    (fun _ => Fetched sample_image) {[ "port" := SInt 8080 ]}.

Definition host_no_versions : Host :=
  make_host true (RaisesNoVersionsListed "no versions listed for ingress")
    (fun _ => Fetched sample_image) {[ "port" := SInt 8080 ]}.

Definition host_incompatible : Host :=
  make_host true (RaisesNoCompatibleVersions "no compatible versions for ingress")
    (fun _ => Fetched sample_image) {[ "port" := SInt 8080 ]}.

(** The image was never uploaded. *)
Definition host_without_image : Host :=
  make_host true (Negotiated {[ "ingress" := Some ingress_interface ]})
    (fun _ => FetchFails missing_resource) {[ "port" := SInt 8080 ]}.

(** The image is there for the first fetch and gone for the second. *)
Definition host_image_withdrawn : Host :=
  make_host true (Negotiated {[ "ingress" := Some ingress_interface ]})
    (fun n => match n with O => Fetched sample_image | _ => FetchFails missing_resource end)
    {[ "port" := SInt 8080 ]}.

(** The image changes between the two fetches. *)
Definition host_image_replaced : Host :=
  make_host true (Negotiated {[ "ingress" := Some ingress_interface ]})
    (fun n => match n with O => Fetched sample_image | _ => Fetched newer_image end)
    {[ "port" := SInt 8080 ]}.

(** No [port] option in the configuration. *)
Definition host_without_port : Host :=
  make_host true (Negotiated {[ "ingress" := Some ingress_interface ]})
    (fun _ => Fetched sample_image) ∅.

(** A string between double quotes. *)
Definition quoted (s : string) : string := String dquote (s ++ String dquote "").

(** The text [json.dumps] gives for the sidebar item of the application
    [katib-ui]. *)
Definition katib_ui_sidebar_json : string :=
  "[{" ++ quoted "app" ++ ": " ++ quoted "katib-ui" ++ ", "
       ++ quoted "position" ++ ": 5, "
       ++ quoted "type" ++ ": " ++ quoted "item" ++ ", "
       ++ quoted "link" ++ ": " ++ quoted "/katib/" ++ ", "
       ++ quoted "text" ++ ": " ++ quoted "Experiments (AutoML)" ++ ", "
       ++ quoted "icon" ++ ": " ++ quoted "kubeflow:katib" ++ "}]".

Definition fresh_world : World :=
  {| unit_status := new_status MaintenanceStatus "";
     pod_spec := None;
     fetch_calls := 0;
     relation_data := ∅;
     log := [] |}.

(** ** Event dispatch

    [Operator.__init__] observes six events: install, upgrade-charm,
    leader-elected and ingress-relation-changed run [set_pod_spec], the two
    sidebar events run their handlers.  Any other event finds no observer
    in the charm. *)
Inductive Event : Type :=
| Install
| UpgradeCharm
| LeaderElected
| IngressRelationChanged
| SidebarRelationJoined (event : RelationEvent)
| SidebarRelationDeparted (event : RelationEvent)
| Unobserved (name : string).

Definition emit (h : Host) (ev : Event) : M unit :=
  match ev with
  | Install | UpgradeCharm | LeaderElected | IngressRelationChanged => set_pod_spec h
  | SidebarRelationJoined event => _on_sidebar_relation_joined h event
  | SidebarRelationDeparted event => _on_sidebar_relation_departed h event
  | Unobserved _ => ret tt
  end.

(** Hooks run one after the other, each against the host as it is when the
    hook runs; a hook that raises fails and the ones behind it do not run. *)
Fixpoint deliver (hooks : list (Host * Event)) : M unit :=
  match hooks with
  | [] => ret tt
  | (h, ev) :: rest => emit h ev;;; deliver rest
  end.

(** The events that [Operator.__init__] binds to [set_pod_spec]. *)
Definition runs_set_pod_spec (ev : Event) : bool :=
  match ev with
  | Install | UpgradeCharm | LeaderElected | IngressRelationChanged => true
  | _ => false
  end.

(** ** Readings of a log *)

(** The [send_data] calls, in order. *)
Definition sent (l : list Effect) : list (SerializedDataInterface * pyval) :=
  omap (fun e => match e with SendData i data => Some (i, data) | _ => None end) l.

(** The [set_spec] calls, in order. *)
Definition published (l : list Effect) : list pyval :=
  omap (fun e => match e with SetSpec spec => Some spec | _ => None end) l.

(** The status updates, in order. *)
Definition statuses (l : list Effect) : list Status :=
  omap (fun e => match e with SetStatus s => Some s | _ => None end) l.

(** A pod spec whose single container listens where it is told to: the
    [--port=] argument and the declared [containerPort] come from the same
    configuration value. *)
Definition port_consistent (spec : pyval) : Prop :=
  exists container http port,
    py_get "containers" spec = Some (PList [container]) /\
    py_get "args" container = Some (PList [PStr ("--port=" ++ format_scalar port)]) /\
    py_get "ports" container = Some (PList [http]) /\
    py_get "containerPort" http = Some (pyval_of_scalar port).

(** The image resource gives the same answer at every call. *)
Definition stable_resource (h : Host) : Prop :=
  forall n m, resource h n = resource h m.

(** ** Readings of a text *)

(** The integer a decimal text stands for ([int(s)] on the texts [str]
    produces). *)
Definition int_of_str (s : string) : option Z :=
  option_map Z.of_int (NilZero.int_of_string s).

Fixpoint all_chars (p : ascii -> bool) (s : string) : bool :=
  match s with
  | EmptyString => true
  | String c rest => p c && all_chars p rest
  end.

(** Printable ASCII: space to tilde. *)
Definition printable (c : ascii) : bool :=
  ((32 <=? N_of_ascii c) && (N_of_ascii c <=? 126))%N.

(** Printable ASCII that [json.dumps] copies as it is. *)
Definition plain_char (c : ascii) : bool :=
  printable c && negb (Ascii.eqb c dquote) && negb (Ascii.eqb c backslash).

(** The text of the sidebar item of an application whose name needs no
    escaping. *)
Definition sidebar_json (name : string) : string :=
  "[{" ++ quoted "app" ++ ": " ++ quoted name ++ ", "
       ++ quoted "position" ++ ": 5, "
       ++ quoted "type" ++ ": " ++ quoted "item" ++ ", "
       ++ quoted "link" ++ ": " ++ quoted "/katib/" ++ ", "
       ++ quoted "text" ++ ": " ++ quoted "Experiments (AutoML)" ++ ", "
       ++ quoted "icon" ++ ": " ++ quoted "kubeflow:katib" ++ "}]".

(** No ingress relation yet and no [port] option. *)
Definition host_without_port_or_ingress : Host :=
  make_host true (Negotiated {[ "ingress" := None ]})
    (fun _ => Fetched sample_image) ∅.

(** * Proofs *)

Local Open Scope list_scope.

Example dumps_sidebar_item :
  dumps (sidebar_item sample_host) = katib_ui_sidebar_json.
Proof. reflexivity. Qed.

Example dumps_empty_list : dumps (PList []) = "[]"%string.
Proof. reflexivity. Qed.

(** A double quote, a backslash, a line feed and the code point 233. *)
Example dumps_escapes :
  dumps (PStr (String dquote (String backslash (String "010"%char (String "233"%char "")))))
  = String dquote
      (String backslash (String dquote
         (String backslash (String backslash
            (String backslash ("n" ++ String backslash ("u00e9" ++ String dquote ""))))))%string).
Proof. reflexivity. Qed.

Example str_int_negative : str_int (-15) = "-15"%string.
Proof. reflexivity. Qed.

Example format_port : format_scalar (SInt 8080) = "8080"%string.
Proof. reflexivity. Qed.

Example sample_run_is_active :
  unit_status (snd (set_pod_spec sample_host fresh_world)) = new_status ActiveStatus "".
Proof. reflexivity. Qed.

Example follower_run_publishes_nothing :
  pod_spec (snd (set_pod_spec follower_host fresh_world)) = None.
Proof. reflexivity. Qed.

Ltac unfold_charm :=
  unfold set_pod_spec, _check_leader, _get_interfaces, _check_image_details,
    _configure_ingress, build_pod_spec, _on_sidebar_relation_joined,
    _on_sidebar_relation_departed, try_except, bind, ret, raise, is_leader,
    get_interfaces, image_fetch, send_data, set_status, set_spec,
    relation_data_update, config_getitem, interfaces_getitem, record,
    CheckFailed_init.

Ltac run_with tac :=
  unfold_charm; unfold after, ingress_effects; tac; cbn;
  rewrite <- ?app_assoc; reflexivity.

Section Paths.
Variables (h : Host) (w : World).

Lemma run_not_leader :
  leader h = false ->
  set_pod_spec h w =
    (Returns tt,
     after w waiting_for_leadership (pod_spec w) 0
       [IsLeader false; SetStatus waiting_for_leadership]).
Proof. intros L. run_with ltac:(rewrite L). Qed.

Hypothesis L : leader h = true.

Lemma run_no_versions_listed (s : string) :
  negotiation h = RaisesNoVersionsListed s ->
  set_pod_spec h w =
    (Returns tt,
     after w (new_status WaitingStatus s) (pod_spec w) 0
       [IsLeader true; GetInterfaces (RaisesNoVersionsListed s);
        SetStatus (new_status WaitingStatus s)]).
Proof. intros N. run_with ltac:(rewrite L, N). Qed.

Lemma run_no_compatible_versions (s : string) :
  negotiation h = RaisesNoCompatibleVersions s ->
  set_pod_spec h w =
    (Returns tt,
     after w (new_status BlockedStatus s) (pod_spec w) 0
       [IsLeader true; GetInterfaces (RaisesNoCompatibleVersions s);
        SetStatus (new_status BlockedStatus s)]).
Proof. intros N. run_with ltac:(rewrite L, N). Qed.

Variable interfaces : gmap string (option SerializedDataInterface).
Hypothesis N : negotiation h = Negotiated interfaces.

Lemma run_precheck_fetch_fails (e : OCIImageResourceError) :
  resource h (fetch_calls w) = FetchFails e ->
  set_pod_spec h w =
    (Returns tt,
     after w (new_status (status_type e) (message (status e))) (pod_spec w) 1
       [IsLeader true; GetInterfaces (Negotiated interfaces); Fetch (FetchFails e);
        SetStatus (new_status (status_type e) (message (status e)))]).
Proof. intros F. run_with ltac:(rewrite L, N; cbn; rewrite F). Qed.

Variable d0 : pyval.
Hypothesis F0 : resource h (fetch_calls w) = Fetched d0.

Lemma run_ingress_key_missing :
  interfaces !! "ingress" = None ->
  set_pod_spec h w =
    (Raises (KeyError "ingress"),
     after w (unit_status w) (pod_spec w) 1
       [IsLeader true; GetInterfaces (Negotiated interfaces); Fetch (Fetched d0)]).
Proof. intros I. run_with ltac:(rewrite L, N; cbn; rewrite F0, I). Qed.

Lemma run_ingress_port_missing (interface : SerializedDataInterface) :
  interfaces !! "ingress" = Some (Some interface) ->
  config h !! "port" = None ->
  set_pod_spec h w =
    (Raises (KeyError "port"),
     after w (unit_status w) (pod_spec w) 1
       [IsLeader true; GetInterfaces (Negotiated interfaces); Fetch (Fetched d0)]).
Proof. intros I P. run_with ltac:(rewrite L, N; cbn; rewrite F0, I, P). Qed.

Variable ingress : option SerializedDataInterface.
Hypothesis I : interfaces !! "ingress" = Some ingress.

Lemma run_refetch_fails (e : OCIImageResourceError) :
  ingress = None \/ is_Some (config h !! "port") ->
  resource h (S (fetch_calls w)) = FetchFails e ->
  set_pod_spec h w =
    (Returns tt,
     after w (status e) (pod_spec w) 2
       ([IsLeader true; GetInterfaces (Negotiated interfaces); Fetch (Fetched d0)]
          ++ ingress_effects h ingress
          ++ [SetStatus setting_pod_spec; Fetch (FetchFails e); SetStatus (status e)])).
Proof.
  intros [->|[p P]] F1.
  - run_with ltac:(rewrite L, N; cbn; rewrite F0, I; cbn; rewrite F1).
  - destruct ingress; run_with ltac:(rewrite L, N; cbn; rewrite F0, I, ?P; cbn; rewrite F1).
Qed.

Variable d1 : pyval.
Hypothesis F1 : resource h (S (fetch_calls w)) = Fetched d1.

Lemma run_publish_port_missing :
  ingress = None ->
  config h !! "port" = None ->
  set_pod_spec h w =
    (Raises (KeyError "port"),
     after w setting_pod_spec (pod_spec w) 2
       [IsLeader true; GetInterfaces (Negotiated interfaces); Fetch (Fetched d0);
        SetStatus setting_pod_spec; Fetch (Fetched d1)]).
Proof.
  intros -> P. run_with ltac:(rewrite L, N; cbn; rewrite F0, I; cbn; rewrite F1, P).
Qed.

Lemma run_published (port : scalar) :
  config h !! "port" = Some port ->
  set_pod_spec h w =
    (Returns tt,
     after w (new_status ActiveStatus "") (Some (pod_spec_dict h port port d1)) 2
       ([IsLeader true; GetInterfaces (Negotiated interfaces); Fetch (Fetched d0)]
          ++ ingress_effects h ingress
          ++ [SetStatus setting_pod_spec; Fetch (Fetched d1);
              SetSpec (pod_spec_dict h port port d1);
              SetStatus (new_status ActiveStatus "")])).
Proof.
  intros P.
  destruct ingress; run_with ltac:(rewrite L, N; cbn; rewrite F0, I, ?P; cbn; rewrite F1, ?P).
Qed.
End Paths.

(** Every run of [set_pod_spec] is one of the nine. *)
Lemma set_pod_spec_Run (h : Host) (w : World) : Run h w (set_pod_spec h w).
Proof.
  destruct (leader h) eqn:L; [|rewrite run_not_leader by done; by constructor].
  destruct (negotiation h) as [interfaces|s|s] eqn:N;
    [|erewrite run_no_versions_listed by done; by constructor
     |erewrite run_no_compatible_versions by done; by constructor].
  destruct (resource h (fetch_calls w)) as [d0|e] eqn:F0;
    [|erewrite run_precheck_fetch_fails by done; by constructor].
  destruct (interfaces !! "ingress") as [ingress|] eqn:I;
    [|erewrite run_ingress_key_missing by done; by constructor].
  destruct (config h !! "port") as [port|] eqn:P.
  - destruct (resource h (S (fetch_calls w))) as [d1|e] eqn:F1.
    + erewrite run_published by done. by constructor.
    + erewrite run_refetch_fails by eauto. constructor; eauto.
  - destruct ingress as [interface|].
    + erewrite run_ingress_port_missing by done. by econstructor.
    + destruct (resource h (S (fetch_calls w))) as [d1|e] eqn:F1.
      * erewrite run_publish_port_missing by done. by constructor.
      * erewrite run_refetch_fails by eauto. constructor; eauto.
Qed.

Lemma ingress_effects_send (h : Host) (ingress : option SerializedDataInterface)
  (e : Effect) :
  In e (ingress_effects h ingress) ->
  exists interface port,
    ingress = Some interface /\ config h !! "port" = Some port /\
    e = SendData interface (ingress_data h port).
Proof.
  unfold ingress_effects.
  destruct ingress as [interface|]; [|intros []].
  destruct (config h !! "port") as [port|]; [|intros []].
  intros [<-|[]]. eauto.
Qed.

Lemma fetch_answers_ingress_effects (h : Host) (ingress : option SerializedDataInterface) :
  fetch_answers (ingress_effects h ingress) = [].
Proof.
  unfold ingress_effects.
  destruct ingress; [destruct (config h !! "port")|]; reflexivity.
Qed.

(** Case analysis on the run of [set_pod_spec h] from [w], with the effects
    of each path spelled out. *)
Ltac run_cases h w :=
  let R := fresh "R" in
  let r := fresh "r" in
  pose proof (set_pod_spec_Run h w) as R;
  unfold effects in *;
  remember (set_pod_spec h w) as r in *;
  match goal with E : r = set_pod_spec h w |- _ => clear E end;
  destruct R;
  cbn [fst snd after log unit_status pod_spec fetch_calls relation_data] in *;
  rewrite ?drop_app_length in *.

(** Two answers to the same question are the same answer. *)
Ltac same_answers :=
  repeat match goal with
    | H1 : ?x = _, H2 : ?x = _ |- _ => rewrite H1 in H2; simplify_eq
    end.

Ltac not_in_log H :=
  rewrite ?in_app_iff in H; cbn [In] in H;
  repeat match type of H with
    | _ \/ _ => destruct H as [H|H]
    | False => destruct H
    | In _ (ingress_effects _ _) =>
        apply ingress_effects_send in H; destruct H as (? & ? & ? & ? & H)
    end;
  try discriminate H.

(** C1. With an integer port [p] in the configuration, a run of
    [set_pod_spec] that publishes a pod spec publishes one with exactly one
    container, whose [args] is the one-element list [--port=p] and whose
    [ports] is the one-element list declaring [containerPort] [p]; that spec
    is the pod spec in force after the run. *)
Theorem published_spec_carries_config_port
  (h : Host) (w : World) (p : Z) (spec : pyval) :
  config h !! "port" = Some (SInt p) ->
  In (SetSpec spec) (effects (set_pod_spec h) w) ->
  fst (set_pod_spec h w) = Returns tt /\
  pod_spec (snd (set_pod_spec h w)) = Some spec /\
  exists container http,
    py_get "containers" spec = Some (PList [container]) /\
    py_get "args" container = Some (PList [PStr ("--port=" ++ str_int p)%string]) /\
    py_get "ports" container = Some (PList [http]) /\
    py_get "name" http = Some (PStr "http") /\
    py_get "containerPort" http = Some (PInt p).
Proof.
  intros P Hin. run_cases h w; not_in_log Hin.
  injection Hin as <-.
  assert (port = SInt p) as -> by congruence.
  split; [reflexivity|]. split; [reflexivity|].
  eexists _, _. repeat split; reflexivity.
Qed.

Lemma published_spec_carries_config_port_witness :
  In (SetSpec (pod_spec_dict sample_host (SInt 8080) (SInt 8080) sample_image))
     (effects (set_pod_spec sample_host) fresh_world) /\
  exists container http,
    py_get "containers" (pod_spec_dict sample_host (SInt 8080) (SInt 8080) sample_image)
      = Some (PList [container]) /\
    py_get "args" container = Some (PList [PStr "--port=8080"]) /\
    py_get "ports" container = Some (PList [http]) /\
    py_get "containerPort" http = Some (PInt 8080).
Proof.
  assert (In (SetSpec (pod_spec_dict sample_host (SInt 8080) (SInt 8080) sample_image))
             (effects (set_pod_spec sample_host) fresh_world)) as Hin.
  { vm_compute. do 6 right. left. reflexivity. }
  split; [exact Hin|].
  destruct (published_spec_carries_config_port sample_host fresh_world 8080 _
              eq_refl Hin) as (_ & _ & container & http & ? & ? & ? & ? & ?).
  exists container, http. auto.
Defined.

(** C2. Whatever the interfaces, the image resource and the configuration
    are, a unit that is not the leader ends [set_pod_spec] normally with
    status Waiting("Waiting for leadership"); the run consists of the
    leadership query followed by that status update and nothing else: no
    negotiation, no fetch, no ingress data, no pod spec. *)
Theorem not_leader_waits_and_does_nothing (h : Host) (w : World) :
  leader h = false ->
  fst (set_pod_spec h w) = Returns tt /\
  unit_status (snd (set_pod_spec h w)) = new_status WaitingStatus "Waiting for leadership" /\
  pod_spec (snd (set_pod_spec h w)) = pod_spec w /\
  fetch_calls (snd (set_pod_spec h w)) = fetch_calls w /\
  relation_data (snd (set_pod_spec h w)) = relation_data w /\
  effects (set_pod_spec h) w =
    [IsLeader false; SetStatus (new_status WaitingStatus "Waiting for leadership")].
Proof.
  intros L. unfold effects. rewrite (run_not_leader h w L).
  cbn [fst snd after log unit_status pod_spec fetch_calls relation_data].
  rewrite drop_app_length. repeat split; reflexivity.
Qed.

Lemma not_leader_waits_and_does_nothing_witness :
  leader follower_host = false /\
  unit_status (snd (set_pod_spec follower_host fresh_world))
    = new_status WaitingStatus "Waiting for leadership" /\
  effects (set_pod_spec follower_host) fresh_world =
    [IsLeader false; SetStatus (new_status WaitingStatus "Waiting for leadership")].
Proof.
  split; [reflexivity|].
  destruct (not_leader_waits_and_does_nothing follower_host fresh_world eq_refl)
    as (_ & S & _ & _ & _ & E).
  split; [exact S | exact E].
Defined.

(** The leadership query is the first thing every run does. *)
Lemma leadership_query_first (h : Host) (w : World) :
  exists rest, effects (set_pod_spec h) w = IsLeader (leader h) :: rest.
Proof.
  run_cases h w;
    repeat match goal with H : leader h = _ |- _ => rewrite H; clear H end;
    cbn [app]; eauto.
Qed.

(** C3. On a leader, a negotiation that raises the no-versions-listed
    error ends the run with status Waiting carrying that error's message, one
    that raises the no-compatible-versions error ends it with status Blocked
    carrying that error's message; either way the handler returns, no pod
    spec is published and the pod spec in force is untouched. *)
Theorem negotiation_errors_map_to_status (h : Host) (w : World) (s : string) :
  leader h = true ->
  (negotiation h = RaisesNoVersionsListed s ->
   unit_status (snd (set_pod_spec h w)) = new_status WaitingStatus s) /\
  (negotiation h = RaisesNoCompatibleVersions s ->
   unit_status (snd (set_pod_spec h w)) = new_status BlockedStatus s) /\
  (negotiation h = RaisesNoVersionsListed s \/
   negotiation h = RaisesNoCompatibleVersions s ->
   fst (set_pod_spec h w) = Returns tt /\
   pod_spec (snd (set_pod_spec h w)) = pod_spec w /\
   effects (set_pod_spec h) w =
     [IsLeader true; GetInterfaces (negotiation h);
      SetStatus (unit_status (snd (set_pod_spec h w)))]).
Proof.
  intros L. split; [|split].
  - intros N. by rewrite (run_no_versions_listed h w L s N).
  - intros N. by rewrite (run_no_compatible_versions h w L s N).
  - unfold effects. intros [N|N]; rewrite N.
    + rewrite (run_no_versions_listed h w L s N).
      cbn [fst snd after log unit_status pod_spec]. by rewrite drop_app_length.
    + rewrite (run_no_compatible_versions h w L s N).
      cbn [fst snd after log unit_status pod_spec]. by rewrite drop_app_length.
Qed.

Lemma negotiation_errors_map_to_status_witness :
  unit_status (snd (set_pod_spec host_no_versions fresh_world))
    = new_status WaitingStatus "no versions listed for ingress" /\
  unit_status (snd (set_pod_spec host_incompatible fresh_world))
    = new_status BlockedStatus "no compatible versions for ingress".
Proof.
  split.
  - exact (proj1 (negotiation_errors_map_to_status host_no_versions fresh_world
                    "no versions listed for ingress" eq_refl) eq_refl).
  - exact (proj1 (proj2 (negotiation_errors_map_to_status host_incompatible fresh_world
                           "no compatible versions for ingress" eq_refl)) eq_refl).
Defined.

(** C4. When a call of [image.fetch()] made by the run fails with error
    [e], the handler returns normally, publishes no pod spec and leaves the
    pod spec in force untouched.  If the failing call is the pre-check, the
    final status has class [e.status_type] and message [e.status.message]; if
    it is the fetch after the ingress step, the final status is [e.status]
    itself.  For an error whose status is of its declared class both are
    [e.status]. *)
Theorem failed_fetch_sets_its_own_status
  (h : Host) (w : World) (e : OCIImageResourceError) :
  In (Fetch (FetchFails e)) (effects (set_pod_spec h) w) ->
  fst (set_pod_spec h w) = Returns tt /\
  pod_spec (snd (set_pod_spec h w)) = pod_spec w /\
  (forall spec, ~ In (SetSpec spec) (effects (set_pod_spec h) w)) /\
  message (unit_status (snd (set_pod_spec h w))) = message (status e) /\
  ((fetch_answers (effects (set_pod_spec h) w) = [FetchFails e] /\
    status_class (unit_status (snd (set_pod_spec h w))) = status_type e)
   \/
   (exists d0,
      fetch_answers (effects (set_pod_spec h) w) = [Fetched d0; FetchFails e] /\
      unit_status (snd (set_pod_spec h w)) = status e)) /\
  (status_class (status e) = status_type e ->
   unit_status (snd (set_pod_spec h w)) = status e).
Proof.
  intros Hin. run_cases h w; not_in_log Hin; injection Hin as ->.
  - repeat split; try reflexivity.
    + intros spec Hs. not_in_log Hs.
    + left. split; reflexivity.
    + intros <-. by destruct (status e).
  - repeat split; try reflexivity.
    + intros spec Hs. not_in_log Hs.
    + right. exists d0. split; [|reflexivity].
      unfold fetch_answers. rewrite !omap_app.
      fold (fetch_answers (ingress_effects h ingress)).
      rewrite fetch_answers_ingress_effects. reflexivity.
Qed.

Lemma failed_fetch_sets_its_own_status_witness :
  (In (Fetch (FetchFails missing_resource))
      (effects (set_pod_spec host_without_image) fresh_world) /\
   unit_status (snd (set_pod_spec host_without_image fresh_world))
     = new_status BlockedStatus "Missing resource: oci-image" /\
   pod_spec (snd (set_pod_spec host_without_image fresh_world)) = None) /\
  (In (Fetch (FetchFails missing_resource))
      (effects (set_pod_spec host_image_withdrawn) fresh_world) /\
   unit_status (snd (set_pod_spec host_image_withdrawn fresh_world))
     = new_status BlockedStatus "Missing resource: oci-image" /\
   pod_spec (snd (set_pod_spec host_image_withdrawn fresh_world)) = None).
Proof.
  assert (In (Fetch (FetchFails missing_resource))
             (effects (set_pod_spec host_without_image) fresh_world)) as H1.
  { vm_compute. do 2 right. left. reflexivity. }
  assert (In (Fetch (FetchFails missing_resource))
             (effects (set_pod_spec host_image_withdrawn) fresh_world)) as H2.
  { vm_compute. do 5 right. left. reflexivity. }
  destruct (failed_fetch_sets_its_own_status _ _ _ H1) as (_ & P1 & _ & _ & _ & S1).
  destruct (failed_fetch_sets_its_own_status _ _ _ H2) as (_ & P2 & _ & _ & _ & S2).
  split; (split; [assumption|split]).
  - exact (S1 eq_refl).
  - exact P1.
  - exact (S2 eq_refl).
  - exact P2.
Defined.

(** An interface set without the [ingress] key, which [get_interfaces] does
    not return for a declared endpoint, makes the subscript of the ingress
    step raise [KeyError]. *)
Lemma ingress_key_missing_raises :
  (∅ : gmap string (option SerializedDataInterface)) !! "ingress" = None /\
  _configure_ingress sample_host ∅ fresh_world
    = (Raises (KeyError "ingress"), fresh_world).
Proof. split; reflexivity. Qed.



(** C6 as stated fails: without a [port] option the subscript
    [config["port"]] of the ingress step raises [KeyError], which no handler
    of [set_pod_spec] catches. *)
Lemma missing_port_propagates_KeyError :
  config host_without_port !! "port" = None /\
  fst (set_pod_spec host_without_port fresh_world) = Raises (KeyError "port").
Proof. split; reflexivity. Qed.

(** C6, amended. With library calls that raise only what the charm catches
    from them, an exception leaves [set_pod_spec] exactly when the unit is
    the leader, the negotiation and the first image fetch succeed, and a
    subscript misses its key: [KeyError] on [ingress] when the negotiated
    set has no such key; [KeyError] on [port] when the configuration has no
    [port] and either the [ingress] entry is an interface (raised in the
    ingress step) or it is [None] and the second fetch succeeds (raised
    while the pod spec is built).  In every other case the handler returns:
    in particular whenever the configuration has a [port] and a negotiated
    set has the [ingress] key.  The sidebar handlers read only the
    leadership and the application name, and return. *)
Theorem handlers_raise_exactly_on_missing_key
  (h : Host) (w : World) (event : RelationEvent) :
  (forall e,
     fst (set_pod_spec h w) = Raises e <->
     leader h = true /\
     exists interfaces d0,
       negotiation h = Negotiated interfaces /\
       resource h (fetch_calls w) = Fetched d0 /\
       ((interfaces !! "ingress" = None /\ e = KeyError "ingress") \/
        (config h !! "port" = None /\ e = KeyError "port" /\
         ((exists interface, interfaces !! "ingress" = Some (Some interface)) \/
          (interfaces !! "ingress" = Some None /\
           exists d1, resource h (S (fetch_calls w)) = Fetched d1))))) /\
  (fst (set_pod_spec h w) = Returns tt \/
   fst (set_pod_spec h w) = Raises (KeyError "ingress") \/
   fst (set_pod_spec h w) = Raises (KeyError "port")) /\
  (is_Some (config h !! "port") ->
   (forall interfaces,
      negotiation h = Negotiated interfaces -> is_Some (interfaces !! "ingress")) ->
   fst (set_pod_spec h w) = Returns tt) /\
  fst (_on_sidebar_relation_joined h event w) = Returns tt /\
  fst (_on_sidebar_relation_departed h event w) = Returns tt /\
  (forall h',
     leader h' = leader h -> app_name h' = app_name h ->
     _on_sidebar_relation_joined h' event w = _on_sidebar_relation_joined h event w /\
     _on_sidebar_relation_departed h' event w = _on_sidebar_relation_departed h event w).
Proof.
  split; [|split; [|split; [|split; [|split]]]].
  - intros e. split.
    + run_cases h w; cbn [fst]; intros E; try discriminate E; injection E as <-;
        (split; [assumption|]); eexists _, _; (split; [eassumption|]);
        (split; [eassumption|]); eauto 10.
    + intros (L & interfaces & d0 & N & F0 & [[I ->]|(P & -> & [[interface I]|[I [d1 F1]]])]).
      * by rewrite (run_ingress_key_missing h w L interfaces N d0 F0 I).
      * by rewrite (run_ingress_port_missing h w L interfaces N d0 F0 interface I P).
      * by rewrite (run_publish_port_missing h w L interfaces N d0 F0 None I d1 F1
                      eq_refl P).
  - run_cases h w; cbn [fst]; auto.
  - intros [port P] K. run_cases h w; try reflexivity; try congruence.
    destruct (K _ ltac:(eassumption)) as [? ?]. congruence.
  - unfold_charm. by destruct (leader h).
  - unfold_charm. by destruct (leader h).
  - intros h' L A. unfold_charm. unfold sidebar_item. rewrite L, A. split; reflexivity.
Qed.

Lemma handlers_raise_exactly_on_missing_key_witness :
  fst (set_pod_spec sample_host fresh_world) = Returns tt /\
  fst (set_pod_spec host_image_withdrawn fresh_world) = Returns tt /\
  fst (set_pod_spec host_without_port_or_ingress fresh_world) = Raises (KeyError "port").
Proof.
  split; [|split].
  - apply (proj1 (proj2 (proj2 (handlers_raise_exactly_on_missing_key sample_host
                                  fresh_world {| relation := 0 |})))).
    + by eexists.
    + intros interfaces [= <-]. by eexists.
  - apply (proj1 (proj2 (proj2 (handlers_raise_exactly_on_missing_key
                                  host_image_withdrawn fresh_world {| relation := 0 |})))).
    + by eexists.
    + intros interfaces [= <-]. by eexists.
  - apply (proj1 (handlers_raise_exactly_on_missing_key host_without_port_or_ingress
                    fresh_world {| relation := 0 |})).
    split; [reflexivity|].
    exists {[ "ingress" := None ]}, sample_image.
    split; [reflexivity|]. split; [reflexivity|].
    right. split; [reflexivity|]. split; [reflexivity|].
    right. split; [reflexivity|]. by exists sample_image.
Defined.

(** C7. On a leader, sidebar-relation-joined writes under [config], in the
    bag of the local application in the event's relation, the JSON text of a
    one-element list whose object has [app] = the application name,
    [position] = 5, [type] = item, [link] = /katib/, [text] =
    Experiments (AutoML), [icon] = kubeflow:katib, and
    sidebar-relation-departed writes the JSON text of the empty list, [[]],
    under the same key; other keys and other relations are kept.  On a unit
    that is not the leader both handlers only query leadership: no relation
    data changes. *)
Theorem sidebar_handlers_publish_config
  (h : Host) (event : RelationEvent) (w : World) :
  (leader h = true ->
   fst (_on_sidebar_relation_joined h event w) = Returns tt /\
   relation_data (snd (_on_sidebar_relation_joined h event w)) =
     <[relation event :=
         <["config" :=
             dumps
               (PList
                  [PDict
                     [("app", PStr (app_name h));
                      ("position", PInt 5);
                      ("type", PStr "item");
                      ("link", PStr "/katib/");
                      ("text", PStr "Experiments (AutoML)");
                      ("icon", PStr "kubeflow:katib")]])]>
           (local_bag w (relation event))]>
       (relation_data w) /\
   fst (_on_sidebar_relation_departed h event w) = Returns tt /\
   relation_data (snd (_on_sidebar_relation_departed h event w)) =
     <[relation event := <["config" := "[]"%string]> (local_bag w (relation event))]>
       (relation_data w)) /\
  (leader h = false ->
   _on_sidebar_relation_joined h event w = (Returns tt, record (IsLeader false) w) /\
   _on_sidebar_relation_departed h event w = (Returns tt, record (IsLeader false) w) /\
   relation_data (snd (_on_sidebar_relation_joined h event w)) = relation_data w /\
   relation_data (snd (_on_sidebar_relation_departed h event w)) = relation_data w).
Proof.
  split; intros L; unfold_charm; rewrite L; cbn;
    rewrite <- ?insert_union_singleton_l; repeat split; reflexivity.
Qed.

Lemma sidebar_handlers_publish_config_witness :
  (relation_data (snd (_on_sidebar_relation_joined sample_host {| relation := 7 |} fresh_world))
     = {[ 7%nat := {[ "config" := katib_ui_sidebar_json ]} ]} /\
   relation_data (snd (_on_sidebar_relation_departed sample_host {| relation := 7 |} fresh_world))
     = {[ 7%nat := {[ "config" := "[]"%string ]} ]}) /\
  relation_data (snd (_on_sidebar_relation_joined follower_host {| relation := 7 |} fresh_world))
    = ∅.
Proof.
  destruct (sidebar_handlers_publish_config sample_host {| relation := 7 |} fresh_world)
    as [Leader _].
  destruct (Leader eq_refl) as (_ & J & _ & D).
  destruct (sidebar_handlers_publish_config follower_host {| relation := 7 |} fresh_world)
    as [_ Follower].
  destruct (Follower eq_refl) as (_ & _ & J' & _).
  split; [split|].
  - rewrite J. reflexivity.
  - rewrite D. reflexivity.
  - rewrite J'. reflexivity.
Defined.

Lemma fetch_answers_around_ingress (h : Host) (ingress : option SerializedDataInterface)
  (before after_ : list Effect) :
  fetch_answers (before ++ ingress_effects h ingress ++ after_)
  = fetch_answers before ++ fetch_answers after_.
Proof.
  unfold fetch_answers. rewrite !omap_app.
  fold (fetch_answers (ingress_effects h ingress)).
  by rewrite fetch_answers_ingress_effects.
Qed.

(** C8. A leader with port 8080, an [ingress] interface in the negotiated
    set and two successful fetches: [set_pod_spec] returns with status
    Active, after sending [{prefix: "/katib/", service: app, port: 8080}] to
    the interface and publishing a pod spec with [version] 3 and one
    container named [katib-ui] with command [./katib-ui], argument
    [--port=8080], port [http] = 8080 and environment
    [KATIB_CORE_NAMESPACE] = the model name. *)
Theorem end_to_end_port_8080
  (h : Host) (w : World) (interfaces : gmap string (option SerializedDataInterface))
  (interface : SerializedDataInterface) (d0 d1 : pyval) :
  leader h = true ->
  config h !! "port" = Some (SInt 8080) ->
  negotiation h = Negotiated interfaces ->
  interfaces !! "ingress" = Some (Some interface) ->
  resource h (fetch_calls w) = Fetched d0 ->
  resource h (S (fetch_calls w)) = Fetched d1 ->
  exists spec container http,
    fst (set_pod_spec h w) = Returns tt /\
    unit_status (snd (set_pod_spec h w)) = new_status ActiveStatus "" /\
    pod_spec (snd (set_pod_spec h w)) = Some spec /\
    effects (set_pod_spec h) w =
      [IsLeader true;
       GetInterfaces (Negotiated interfaces);
       Fetch (Fetched d0);
       SendData interface
         (PDict [("prefix", PStr "/katib/");
                 ("service", PStr (app_name h));
                 ("port", PInt 8080)]);
       SetStatus (new_status MaintenanceStatus "Setting pod spec");
       Fetch (Fetched d1);
       SetSpec spec;
       SetStatus (new_status ActiveStatus "")] /\
    py_get "version" spec = Some (PInt 3) /\
    py_get "containers" spec = Some (PList [container]) /\
    py_get "name" container = Some (PStr "katib-ui") /\
    py_get "command" container = Some (PList [PStr "./katib-ui"]) /\
    py_get "args" container = Some (PList [PStr "--port=8080"]) /\
    py_get "imageDetails" container = Some d1 /\
    py_get "ports" container = Some (PList [http]) /\
    py_get "name" http = Some (PStr "http") /\
    py_get "containerPort" http = Some (PInt 8080) /\
    py_get "envConfig" container
      = Some (PDict [("KATIB_CORE_NAMESPACE", PStr (model_name h))]).
Proof.
  intros L P N I F0 F1.
  unfold effects.
  rewrite (run_published h w L interfaces N d0 F0 (Some interface) I d1 F1 (SInt 8080) P).
  cbn [fst snd after log unit_status pod_spec]. rewrite drop_app_length.
  unfold ingress_effects. rewrite P.
  eexists _, _, _. repeat split; reflexivity.
Qed.

Lemma end_to_end_port_8080_witness :
  fst (set_pod_spec sample_host fresh_world) = Returns tt /\
  unit_status (snd (set_pod_spec sample_host fresh_world)) = new_status ActiveStatus "" /\
  In (SendData ingress_interface
        (PDict [("prefix", PStr "/katib/");
                ("service", PStr "katib-ui");
                ("port", PInt 8080)]))
     (effects (set_pod_spec sample_host) fresh_world).
Proof.
  destruct (end_to_end_port_8080 sample_host fresh_world
              {[ "ingress" := Some ingress_interface ]} ingress_interface
              sample_image sample_image eq_refl eq_refl eq_refl eq_refl eq_refl eq_refl)
    as (spec & container & http & R & S & _ & E & _).
  split; [exact R|]. split; [exact S|].
  rewrite E. do 3 right. left. reflexivity.
Defined.

(** C9 as stated fails: a run can pass the leadership, interface and first
    image checks and still fetch only once, when the ingress step raises
    [KeyError] between the two fetches. *)
Lemma single_fetch_when_ingress_step_raises :
  leader host_without_port = true /\
  negotiation host_without_port
    = Negotiated {[ "ingress" := Some ingress_interface ]} /\
  resource host_without_port (fetch_calls fresh_world) = Fetched sample_image /\
  fetch_answers (effects (set_pod_spec host_without_port) fresh_world)
    = [Fetched sample_image] /\
  fetch_calls (snd (set_pod_spec host_without_port fresh_world)) = 1%nat.
Proof. repeat split; reflexivity. Qed.

(** C9, amended. On a run that passes the leadership, interface and first
    image checks and whose ingress step goes through, [image.fetch()] is
    called exactly twice; the second call gets the resource's next answer,
    whatever the first one was, and a pod spec that is published carries the
    image details of the second answer. *)
Theorem image_fetched_twice_second_result_used
  (h : Host) (w : World) (interfaces : gmap string (option SerializedDataInterface))
  (d0 : pyval) :
  leader h = true ->
  negotiation h = Negotiated interfaces ->
  resource h (fetch_calls w) = Fetched d0 ->
  ingress_step_passes h interfaces ->
  fetch_answers (effects (set_pod_spec h) w)
    = [Fetched d0; resource h (S (fetch_calls w))] /\
  fetch_calls (snd (set_pod_spec h w)) = (2 + fetch_calls w)%nat /\
  (forall spec,
     In (SetSpec spec) (effects (set_pod_spec h) w) ->
     exists d1 container,
       resource h (S (fetch_calls w)) = Fetched d1 /\
       pod_spec (snd (set_pod_spec h w)) = Some spec /\
       py_get "containers" spec = Some (PList [container]) /\
       py_get "imageDetails" container = Some d1) /\
  (forall d1 port,
     resource h (S (fetch_calls w)) = Fetched d1 ->
     config h !! "port" = Some port ->
     In (SetSpec (pod_spec_dict h port port d1)) (effects (set_pod_spec h) w)).
Proof.
  intros L N F0 (ingress & I & Pass).
  run_cases h w; same_answers; rewrite ?fetch_answers_around_ingress.
  - destruct Pass as [?|[? ?]]; congruence.
  - repeat split; try (cbn; congruence).
    intros spec Hs. not_in_log Hs.
  - repeat split; try (cbn; congruence).
    intros spec Hs. not_in_log Hs.
  - repeat split; try (cbn; congruence).
    + intros spec Hs. not_in_log Hs. injection Hs as <-.
      exists d2. eexists. repeat split; try reflexivity. assumption.
    + intros d3 port' F1 P.
      assert (d3 = d2) as -> by congruence.
      assert (port' = port) as -> by congruence.
      rewrite !in_app_iff. right. right. cbn. auto.
Qed.

Lemma image_fetched_twice_second_result_used_witness :
  fetch_answers (effects (set_pod_spec host_image_replaced) fresh_world)
    = [Fetched sample_image; Fetched newer_image] /\
  In (SetSpec (pod_spec_dict host_image_replaced (SInt 8080) (SInt 8080) newer_image))
     (effects (set_pod_spec host_image_replaced) fresh_world).
Proof.
  assert (ingress_step_passes host_image_replaced
            {[ "ingress" := Some ingress_interface ]}) as Pass.
  { exists (Some ingress_interface). split; [reflexivity|]. right. by eexists. }
  destruct (image_fetched_twice_second_result_used host_image_replaced fresh_world
              {[ "ingress" := Some ingress_interface ]} sample_image
              eq_refl eq_refl eq_refl Pass) as (A & _ & _ & S).
  split; [exact A|]. exact (S newer_image (SInt 8080) eq_refl eq_refl).
Defined.

(** C10. On a run whose first fetch succeeds and whose second fetch fails
    with error [e], the effects are, in this order: the leadership query, the
    negotiation, the first fetch, the ingress data when the negotiated set
    maps [ingress] to an interface, the status Maintenance("Setting pod
    spec"), the failing fetch, and the status of the error.  The handler
    returns, no pod spec is published, and the pod spec in force is
    untouched. *)
Theorem refetch_failure_keeps_ingress_side_effect
  (h : Host) (w : World) (d0 : pyval) (e : OCIImageResourceError) :
  fetch_answers (effects (set_pod_spec h) w) = [Fetched d0; FetchFails e] ->
  exists interfaces ingress,
    leader h = true /\
    negotiation h = Negotiated interfaces /\
    interfaces !! "ingress" = Some ingress /\
    (forall interface,
       ingress = Some interface ->
       exists port,
         config h !! "port" = Some port /\
         effects (set_pod_spec h) w =
           [IsLeader true;
            GetInterfaces (Negotiated interfaces);
            Fetch (Fetched d0);
            SendData interface
              (PDict [("prefix", PStr "/katib/");
                      ("service", PStr (app_name h));
                      ("port", pyval_of_scalar port)]);
            SetStatus (new_status MaintenanceStatus "Setting pod spec");
            Fetch (FetchFails e);
            SetStatus (status e)]) /\
    (ingress = None ->
     effects (set_pod_spec h) w =
       [IsLeader true;
        GetInterfaces (Negotiated interfaces);
        Fetch (Fetched d0);
        SetStatus (new_status MaintenanceStatus "Setting pod spec");
        Fetch (FetchFails e);
        SetStatus (status e)]) /\
    fst (set_pod_spec h w) = Returns tt /\
    unit_status (snd (set_pod_spec h w)) = status e /\
    pod_spec (snd (set_pod_spec h w)) = pod_spec w /\
    (forall spec, ~ In (SetSpec spec) (effects (set_pod_spec h) w)).
Proof.
  intros Answers.
  run_cases h w; rewrite ?fetch_answers_around_ingress in Answers;
    try discriminate Answers.
  injection Answers as -> ->.
  exists interfaces, ingress. repeat split; try assumption.
  - intros interface ->.
    match goal with H : _ \/ _ |- _ => destruct H as [[=]|[port P]] end.
    exists port. split; [exact P|]. unfold ingress_effects. by rewrite P.
  - by intros ->.
  - intros spec Hs. not_in_log Hs.
Qed.

Lemma refetch_failure_keeps_ingress_side_effect_witness :
  fetch_answers (effects (set_pod_spec host_image_withdrawn) fresh_world)
    = [Fetched sample_image; FetchFails missing_resource] /\
  effects (set_pod_spec host_image_withdrawn) fresh_world =
    [IsLeader true;
     GetInterfaces (Negotiated {[ "ingress" := Some ingress_interface ]});
     Fetch (Fetched sample_image);
     SendData ingress_interface
       (PDict [("prefix", PStr "/katib/");
               ("service", PStr "katib-ui");
               ("port", PInt 8080)]);
     SetStatus (new_status MaintenanceStatus "Setting pod spec");
     Fetch (FetchFails missing_resource);
     SetStatus (new_status BlockedStatus "Missing resource: oci-image")] /\
  pod_spec (snd (set_pod_spec host_image_withdrawn fresh_world)) = None.
Proof.
  assert (fetch_answers (effects (set_pod_spec host_image_withdrawn) fresh_world)
          = [Fetched sample_image; FetchFails missing_resource]) as Answers
    by reflexivity.
  split; [exact Answers|].
  destruct (refetch_failure_keeps_ingress_side_effect host_image_withdrawn fresh_world
              sample_image missing_resource Answers)
    as (interfaces & ingress & _ & N & I & Sent & _ & _ & _ & P & _).
  injection N as <-.
  injection I as <-.
  destruct (Sent ingress_interface eq_refl) as (port & Pt & E).
  injection Pt as <-.
  split; [exact E | exact P].
Defined.

(** * Further properties of the handlers *)

(** X1. The three checks translate every failure into [CheckFailed]: no
    other exception leaves [_check_leader], [_get_interfaces] or
    [_check_image_details], and the status carried by the exception is the
    status class applied to its message. *)
Theorem checks_raise_only_CheckFailed (h : Host) (w : World) (e : exn) :
  fst (_check_leader h w) = Raises e \/
  fst (_get_interfaces h w) = Raises e \/
  fst (_check_image_details h w) = Raises e ->
  exists msg t, e = CheckFailed msg t (new_status t msg).
Proof.
  unfold_charm. intros [H|[H|H]].
  - destruct (leader h); cbn in H; [discriminate H|]. injection H as <-. eauto.
  - destruct (negotiation h); cbn in H; [discriminate H| |]; injection H as <-; eauto.
  - destruct (resource h (fetch_calls w)); cbn in H; [discriminate H|].
    injection H as <-. eauto.
Qed.

Lemma checks_raise_only_CheckFailed_witness :
  fst (_check_image_details host_without_image fresh_world)
    = Raises (CheckFailed "Missing resource: oci-image" BlockedStatus
                (new_status BlockedStatus "Missing resource: oci-image")) /\
  exists msg t,
    CheckFailed "Missing resource: oci-image" BlockedStatus
      (new_status BlockedStatus "Missing resource: oci-image")
    = CheckFailed msg t (new_status t msg).
Proof.
  split; [reflexivity|].
  apply (checks_raise_only_CheckFailed host_without_image fresh_world).
  right. right. reflexivity.
Defined.

(** X2. A run of [set_pod_spec] that raises has sent nothing over the
    ingress relation and published nothing; the pod spec in force and the
    relation data are untouched.  Its status is either never set, or left at
    Maintenance("Setting pod spec") by a [KeyError] on [port] raised while
    the pod spec was being built. *)
Theorem raising_run_leaves_no_side_effect (h : Host) (w : World) (e : exn) :
  fst (set_pod_spec h w) = Raises e ->
  sent (effects (set_pod_spec h) w) = [] /\
  published (effects (set_pod_spec h) w) = [] /\
  pod_spec (snd (set_pod_spec h w)) = pod_spec w /\
  relation_data (snd (set_pod_spec h w)) = relation_data w /\
  ((statuses (effects (set_pod_spec h) w) = [] /\
    unit_status (snd (set_pod_spec h w)) = unit_status w)
   \/
   (statuses (effects (set_pod_spec h) w)
      = [new_status MaintenanceStatus "Setting pod spec"] /\
    unit_status (snd (set_pod_spec h w))
      = new_status MaintenanceStatus "Setting pod spec" /\
    e = KeyError "port")).
Proof.
  intros E. run_cases h w; cbn [fst] in E; try discriminate E;
    injection E as <-; repeat split; try reflexivity; auto.
Qed.

Lemma raising_run_leaves_no_side_effect_witness :
  (sent (effects (set_pod_spec host_without_port) fresh_world) = [] /\
   unit_status (snd (set_pod_spec host_without_port fresh_world))
     = unit_status fresh_world) /\
  (published (effects (set_pod_spec host_without_port_or_ingress) fresh_world) = [] /\
   unit_status (snd (set_pod_spec host_without_port_or_ingress fresh_world))
     = new_status MaintenanceStatus "Setting pod spec").
Proof.
  destruct (raising_run_leaves_no_side_effect host_without_port fresh_world
              (KeyError "port") eq_refl) as (S1 & _ & _ & _ & _).
  destruct (raising_run_leaves_no_side_effect host_without_port_or_ingress fresh_world
              (KeyError "port") eq_refl) as (_ & P2 & _ & _ & _).
  split; (split; [assumption | reflexivity]).
Defined.

(** Case analysis on what the ingress step logged. *)
Ltac ingress_cases :=
  unfold ingress_effects in *;
  repeat match goal with
    | |- context [match ?x with Some _ => _ | None => _ end] => destruct x eqn:?
    | H : context [match ?x with Some _ => _ | None => _ end] |- _ => destruct x eqn:?
    end;
  cbn [app omap sent published statuses fetch_answers] in *.

(** X3. A pod spec is published at most once per run, only by a leader,
    only after two successful fetches, and the publication is followed by
    the status Active and nothing else: a run that publishes ends Active. *)
Theorem publication_ends_active (h : Host) (w : World) (spec : pyval) :
  In (SetSpec spec) (effects (set_pod_spec h) w) ->
  leader h = true /\
  published (effects (set_pod_spec h) w) = [spec] /\
  (exists d0 d1, fetch_answers (effects (set_pod_spec h) w) = [Fetched d0; Fetched d1]) /\
  (exists before,
     effects (set_pod_spec h) w
     = before ++ [SetSpec spec; SetStatus (new_status ActiveStatus "")]) /\
  unit_status (snd (set_pod_spec h w)) = new_status ActiveStatus "".
Proof.
  intros Hin. run_cases h w; not_in_log Hin. injection Hin as <-.
  split; [assumption|]. split; [|split; [|split]].
  - by ingress_cases.
  - exists d0, d1. by ingress_cases.
  - exists ([IsLeader true; GetInterfaces (Negotiated interfaces); Fetch (Fetched d0)]
              ++ ingress_effects h ingress
              ++ [SetStatus setting_pod_spec; Fetch (Fetched d1)]).
    by rewrite <- !app_assoc.
  - reflexivity.
Qed.

Lemma publication_ends_active_witness :
  published (effects (set_pod_spec sample_host) fresh_world)
    = [pod_spec_dict sample_host (SInt 8080) (SInt 8080) sample_image] /\
  unit_status (snd (set_pod_spec sample_host fresh_world)) = new_status ActiveStatus "".
Proof.
  assert (In (SetSpec (pod_spec_dict sample_host (SInt 8080) (SInt 8080) sample_image))
             (effects (set_pod_spec sample_host) fresh_world)) as Hin.
  { vm_compute. do 6 right. left. reflexivity. }
  destruct (publication_ends_active _ _ _ Hin) as (_ & P & _ & _ & S).
  split; assumption.
Defined.

(** X4. When a run both sends ingress data and publishes a pod spec, the
    [port] of the ingress data is the [containerPort] of the published
    container, and the [service] is the application name: the ingress is
    pointed at the port the container declares. *)
Theorem ingress_port_is_container_port
  (h : Host) (w : World) (i : SerializedDataInterface) (data spec : pyval) :
  In (SendData i data) (effects (set_pod_spec h) w) ->
  In (SetSpec spec) (effects (set_pod_spec h) w) ->
  exists container http port,
    py_get "containers" spec = Some (PList [container]) /\
    py_get "ports" container = Some (PList [http]) /\
    py_get "containerPort" http = Some port /\
    py_get "port" data = Some port /\
    py_get "service" data = Some (PStr (app_name h)) /\
    py_get "prefix" data = Some (PStr "/katib/").
Proof.
  intros Hsend Hspec. run_cases h w; not_in_log Hspec. injection Hspec as <-.
  not_in_log Hsend. subst. same_answers.
  eexists _, _, _. repeat split; reflexivity.
Qed.

Lemma ingress_port_is_container_port_witness :
  exists container http,
    py_get "containers" (pod_spec_dict sample_host (SInt 8080) (SInt 8080) sample_image)
      = Some (PList [container]) /\
    py_get "ports" container = Some (PList [http]) /\
    py_get "containerPort" http = py_get "port" (ingress_data sample_host (SInt 8080)).
Proof.
  assert (In (SendData ingress_interface (ingress_data sample_host (SInt 8080)))
             (effects (set_pod_spec sample_host) fresh_world)) as Hsend.
  { vm_compute. do 3 right. left. reflexivity. }
  assert (In (SetSpec (pod_spec_dict sample_host (SInt 8080) (SInt 8080) sample_image))
             (effects (set_pod_spec sample_host) fresh_world)) as Hspec.
  { vm_compute. do 6 right. left. reflexivity. }
  destruct (ingress_port_is_container_port _ _ _ _ _ Hsend Hspec)
    as (container & http & port & C & P & CP & DP & _).
  exists container, http. rewrite CP, DP. auto.
Defined.

(** X5. Ingress data is sent at most once per run, only by a leader whose
    negotiation and first image fetch succeeded, only to the interface found
    under [ingress], and it is always the dictionary built from the
    application name and the configured port. *)
Theorem ingress_data_sent_only_after_checks
  (h : Host) (w : World) (i : SerializedDataInterface) (data : pyval) :
  In (SendData i data) (effects (set_pod_spec h) w) ->
  leader h = true /\
  sent (effects (set_pod_spec h) w) = [(i, data)] /\
  exists interfaces port d0,
    negotiation h = Negotiated interfaces /\
    interfaces !! "ingress" = Some (Some i) /\
    resource h (fetch_calls w) = Fetched d0 /\
    config h !! "port" = Some port /\
    data = PDict [("prefix", PStr "/katib/");
                  ("service", PStr (app_name h));
                  ("port", pyval_of_scalar port)].
Proof.
  intros Hsend.
  run_cases h w; ingress_cases; cbn [In] in Hsend;
    repeat (destruct Hsend as [Hsend|Hsend]); try contradiction;
    simplify_eq; same_answers.
  all: split; [assumption|]; split; [reflexivity|].
  all: eexists _, _, _; repeat split; eassumption.
Qed.

Lemma ingress_data_sent_only_after_checks_witness :
  sent (effects (set_pod_spec host_image_withdrawn) fresh_world)
    = [(ingress_interface, ingress_data host_image_withdrawn (SInt 8080))].
Proof.
  assert (In (SendData ingress_interface (ingress_data host_image_withdrawn (SInt 8080)))
             (effects (set_pod_spec host_image_withdrawn) fresh_world)) as Hsend.
  { vm_compute. do 3 right. left. reflexivity. }
  exact (proj1 (proj2 (ingress_data_sent_only_after_checks _ _ _ _ Hsend))).
Defined.

(** X6. Whatever its inputs, [set_pod_spec] calls [image.fetch()] at most
    twice, never updates a relation bag through [relation.data] (its only
    write to a relation is the [send_data] of the ingress step), and changes
    the pod spec in force only by publishing: either the pod spec is the
    previous one and nothing was published, or exactly one spec was published
    and it is the one in force. *)
Theorem set_pod_spec_frame (h : Host) (w : World) :
  log (snd (set_pod_spec h w)) = log w ++ effects (set_pod_spec h) w /\
  fetch_calls (snd (set_pod_spec h w))
    = (length (fetch_answers (effects (set_pod_spec h) w)) + fetch_calls w)%nat /\
  (length (fetch_answers (effects (set_pod_spec h) w)) <= 2)%nat /\
  (forall i r, ~ In (RelationUpdate i r) (effects (set_pod_spec h) w)) /\
  (length (sent (effects (set_pod_spec h) w)) <= 1)%nat /\
  (pod_spec (snd (set_pod_spec h w)) = pod_spec w /\
   published (effects (set_pod_spec h) w) = []
   \/
   exists spec,
     pod_spec (snd (set_pod_spec h w)) = Some spec /\
     published (effects (set_pod_spec h) w) = [spec]).
Proof.
  run_cases h w; rewrite ?fetch_answers_around_ingress;
    (split; [reflexivity|]); (split; [reflexivity|]); (split; [cbn; lia|]);
    (split; [intros i r Hr; not_in_log Hr|]);
    (split; [ingress_cases; cbn; lia|]);
    try (left; split; [reflexivity|]; by ingress_cases).
  right. eexists. split; [reflexivity|]. by ingress_cases.
Qed.

Lemma statuses_around_ingress (h : Host) (ingress : option SerializedDataInterface)
  (before after_ : list Effect) :
  statuses (before ++ ingress_effects h ingress ++ after_)
  = statuses before ++ statuses after_.
Proof.
  unfold statuses. rewrite !omap_app.
  unfold ingress_effects. by destruct ingress, (config h !! "port").
Qed.

Lemma published_around_ingress (h : Host) (ingress : option SerializedDataInterface)
  (before after_ : list Effect) :
  published (before ++ ingress_effects h ingress ++ after_)
  = published before ++ published after_.
Proof.
  unfold published. rewrite !omap_app.
  unfold ingress_effects. by destruct ingress, (config h !! "port").
Qed.

(** The status and the pod spec after a run are the last ones the run set,
    or the previous ones when it set none. *)
Lemma state_follows_log (h : Host) (w : World) :
  unit_status (snd (set_pod_spec h w))
    = default (unit_status w) (last (statuses (effects (set_pod_spec h) w))) /\
  pod_spec (snd (set_pod_spec h w))
    = match last (published (effects (set_pod_spec h) w)) with
      | Some spec => Some spec
      | None => pod_spec w
      end.
Proof.
  run_cases h w; rewrite ?statuses_around_ingress, ?published_around_ingress;
    split; reflexivity.
Qed.

(** A run that returns has set the status. *)
Lemma returning_run_sets_status (h : Host) (w : World) :
  fst (set_pod_spec h w) = Returns tt ->
  is_Some (last (statuses (effects (set_pod_spec h) w))).
Proof.
  intros R. run_cases h w; cbn [fst] in R; try discriminate R;
    rewrite ?statuses_around_ingress; by eexists.
Qed.

(** Try every path of [set_pod_spec] on the world [w2], with the answers
    found in the context. *)
Ltac rerun h w2 :=
  first
    [ rewrite (run_not_leader h w2) by assumption
    | erewrite (run_no_versions_listed h w2) by eassumption
    | erewrite (run_no_compatible_versions h w2) by eassumption
    | erewrite (run_precheck_fetch_fails h w2) by eassumption
    | erewrite (run_ingress_key_missing h w2) by eassumption
    | erewrite (run_ingress_port_missing h w2) by eassumption
    | erewrite (run_refetch_fails h w2) by eassumption
    | erewrite (run_publish_port_missing h w2) by (eassumption || reflexivity)
    | erewrite (run_published h w2) by eassumption ].

(** Two runs that get the same answers from the image resource end the same
    way and have the same effects. *)
Lemma same_answers_same_run (h : Host) (w1 w2 : World) :
  resource h (fetch_calls w2) = resource h (fetch_calls w1) ->
  resource h (S (fetch_calls w2)) = resource h (S (fetch_calls w1)) ->
  fst (set_pod_spec h w2) = fst (set_pod_spec h w1) /\
  effects (set_pod_spec h) w2 = effects (set_pod_spec h) w1.
Proof.
  intros E0 E1. run_cases h w1;
    repeat match goal with
      | F : resource h (fetch_calls w1) = _ |- _ => rewrite <- E0 in F
      | F : resource h (S (fetch_calls w1)) = _ |- _ => rewrite <- E1 in F
      end;
    rerun h w2;
    cbn [fst snd after log]; rewrite drop_app_length; split; reflexivity.
Qed.

(** X7. Delivering the event again to a host whose image resource keeps
    giving the same answer changes nothing: the second run of
    [set_pod_spec] ends the same way, has the same effects, and leaves the
    status and the pod spec where the first run left them. *)
Theorem set_pod_spec_idempotent (h : Host) (w : World) :
  stable_resource h ->
  fst (set_pod_spec h (snd (set_pod_spec h w))) = fst (set_pod_spec h w) /\
  effects (set_pod_spec h) (snd (set_pod_spec h w)) = effects (set_pod_spec h) w /\
  unit_status (snd (set_pod_spec h (snd (set_pod_spec h w))))
    = unit_status (snd (set_pod_spec h w)) /\
  pod_spec (snd (set_pod_spec h (snd (set_pod_spec h w))))
    = pod_spec (snd (set_pod_spec h w)).
Proof.
  intros Stable.
  destruct (same_answers_same_run h w (snd (set_pod_spec h w))
              (Stable _ _) (Stable _ _)) as [R E].
  destruct (state_follows_log h (snd (set_pod_spec h w))) as [S2 P2].
  destruct (state_follows_log h w) as [S1 P1].
  rewrite E in S2, P2.
  repeat split; try assumption.
  - rewrite S2, S1. by destruct (last (statuses (effects (set_pod_spec h) w))).
  - rewrite P2, P1. by destruct (last (published (effects (set_pod_spec h) w))).
Qed.

Lemma set_pod_spec_idempotent_witness :
  stable_resource sample_host /\
  effects (set_pod_spec sample_host) (snd (set_pod_spec sample_host fresh_world))
    = effects (set_pod_spec sample_host) fresh_world /\
  pod_spec (snd (set_pod_spec sample_host (snd (set_pod_spec sample_host fresh_world))))
    = pod_spec (snd (set_pod_spec sample_host fresh_world)).
Proof.
  assert (stable_resource sample_host) as Stable by (intros n m; reflexivity).
  split; [exact Stable|].
  destruct (set_pod_spec_idempotent sample_host fresh_world Stable) as (_ & E & _ & P).
  split; assumption.
Defined.

(** X8. [set_pod_spec] reads nothing of what earlier runs left behind: two
    worlds that agree on the image resource's next answers give the same
    outcome and the same effects, whatever their status, pod spec, relation
    data and log; when the handler returns the final status is the same,
    and when it publishes the pod spec in force is the same. *)
Theorem set_pod_spec_ignores_history (h : Host) (w1 w2 : World) :
  fetch_calls w1 = fetch_calls w2 ->
  fst (set_pod_spec h w2) = fst (set_pod_spec h w1) /\
  effects (set_pod_spec h) w2 = effects (set_pod_spec h) w1 /\
  (fst (set_pod_spec h w1) = Returns tt ->
   unit_status (snd (set_pod_spec h w2)) = unit_status (snd (set_pod_spec h w1))) /\
  (published (effects (set_pod_spec h) w1) <> [] ->
   pod_spec (snd (set_pod_spec h w2)) = pod_spec (snd (set_pod_spec h w1))).
Proof.
  intros F.
  destruct (same_answers_same_run h w1 w2) as [R E]; [by rewrite F..|].
  destruct (state_follows_log h w2) as [S2 P2].
  destruct (state_follows_log h w1) as [S1 P1].
  rewrite E in S2, P2.
  repeat split; try assumption.
  - intros Ret. destruct (returning_run_sets_status h w1 Ret) as [s Last].
    by rewrite S2, S1, Last.
  - intros Pub. rewrite P2, P1.
    destruct (published (effects (set_pod_spec h) w1)) as [|spec l] using rev_ind;
      [done|].
    by rewrite last_snoc.
Qed.

Lemma set_pod_spec_ignores_history_witness :
  unit_status
    (snd (set_pod_spec host_without_image
            {| unit_status := new_status ActiveStatus "";
               pod_spec := Some sample_image;
               fetch_calls := 0;
               relation_data := ∅;
               log := [SetStatus (new_status ActiveStatus "")] |}))
  = unit_status (snd (set_pod_spec host_without_image fresh_world)).
Proof.
  symmetry.
  refine (proj1 (proj2 (proj2
            (set_pod_spec_ignores_history host_without_image _ fresh_world eq_refl))) _).
  reflexivity.
Defined.

(** X9. Whoever runs them, the sidebar handlers return normally and leave
    alone the unit status, the pod spec, the image resource, every other
    relation, and every key of the event's relation other than [config]. *)
Theorem sidebar_handlers_touch_only_config
  (handler : Host -> RelationEvent -> M unit) (h : Host) (event : RelationEvent)
  (w : World) :
  handler = _on_sidebar_relation_joined \/ handler = _on_sidebar_relation_departed ->
  fst (handler h event w) = Returns tt /\
  unit_status (snd (handler h event w)) = unit_status w /\
  pod_spec (snd (handler h event w)) = pod_spec w /\
  fetch_calls (snd (handler h event w)) = fetch_calls w /\
  (forall r, r <> relation event ->
     relation_data (snd (handler h event w)) !! r = relation_data w !! r) /\
  (forall k, k <> "config"%string ->
     local_bag (snd (handler h event w)) (relation event) !! k
     = local_bag w (relation event) !! k).
Proof.
  intros [-> | ->]; unfold_charm; destruct (leader h); cbn;
    repeat split; try reflexivity.
  all: try (intros r Hr; by rewrite lookup_insert_ne).
  all: intros k Hk; unfold local_bag; cbn; rewrite lookup_insert_eq; cbn;
    rewrite lookup_union_r; [reflexivity|]; by rewrite lookup_singleton_ne.
Qed.

Lemma sidebar_handlers_touch_only_config_witness :
  pod_spec (snd (_on_sidebar_relation_joined sample_host {| relation := 7 |}
                   (snd (set_pod_spec sample_host fresh_world))))
  = pod_spec (snd (set_pod_spec sample_host fresh_world)).
Proof.
  exact (proj1 (proj2 (proj2
           (sidebar_handlers_touch_only_config _on_sidebar_relation_joined sample_host
              {| relation := 7 |} (snd (set_pod_spec sample_host fresh_world))
              (or_introl eq_refl))))).
Defined.

(** X10. On a leader the sidebar data of a relation is that of the last
    sidebar event handled: a departure after a join leaves what the departure
    alone leaves, a join after a departure leaves what the join alone leaves,
    and handling the same event twice leaves what handling it once leaves. *)
Theorem sidebar_last_event_wins (h : Host) (event : RelationEvent) (w : World) :
  leader h = true ->
  relation_data
    (snd (_on_sidebar_relation_departed h event
            (snd (_on_sidebar_relation_joined h event w))))
  = relation_data (snd (_on_sidebar_relation_departed h event w)) /\
  relation_data
    (snd (_on_sidebar_relation_joined h event
            (snd (_on_sidebar_relation_departed h event w))))
  = relation_data (snd (_on_sidebar_relation_joined h event w)) /\
  relation_data
    (snd (_on_sidebar_relation_joined h event
            (snd (_on_sidebar_relation_joined h event w))))
  = relation_data (snd (_on_sidebar_relation_joined h event w)) /\
  relation_data
    (snd (_on_sidebar_relation_departed h event
            (snd (_on_sidebar_relation_departed h event w))))
  = relation_data (snd (_on_sidebar_relation_departed h event w)).
Proof.
  intros L. unfold_charm. rewrite L. cbn. unfold local_bag. cbn.
  rewrite !lookup_insert_eq. cbn.
  rewrite <- !insert_union_singleton_l, !insert_insert_eq.
  repeat split; reflexivity.
Qed.

Lemma sidebar_last_event_wins_witness :
  relation_data
    (snd (_on_sidebar_relation_departed sample_host {| relation := 7 |}
            (snd (_on_sidebar_relation_joined sample_host {| relation := 7 |}
                    fresh_world))))
  = {[ 7%nat := {[ "config" := "[]"%string ]} ]}.
Proof.
  rewrite (proj1 (sidebar_last_event_wins sample_host {| relation := 7 |} fresh_world
                    eq_refl)).
  reflexivity.
Defined.

Lemma deliver_cons (h : Host) (ev : Event) (rest : list (Host * Event)) (w : World) :
  deliver ((h, ev) :: rest) w =
    match emit h ev w with
    | (Returns _, w') => deliver rest w'
    | (Raises e, w') => (Raises e, w')
    end.
Proof. reflexivity. Qed.

(** What one hook does on a unit that is not the leader. *)
Lemma emit_not_leader (h : Host) (ev : Event) (w : World) :
  leader h = false ->
  fst (emit h ev w) = Returns tt /\
  pod_spec (snd (emit h ev w)) = pod_spec w /\
  relation_data (snd (emit h ev w)) = relation_data w /\
  fetch_calls (snd (emit h ev w)) = fetch_calls w /\
  unit_status (snd (emit h ev w))
    = if runs_set_pod_spec ev then waiting_for_leadership else unit_status w.
Proof.
  intros L.
  destruct ev; cbn [emit runs_set_pod_spec];
    rewrite ?(run_not_leader h w L); try (repeat split; reflexivity);
    unfold_charm; rewrite L; repeat split; reflexivity.
Qed.

(** X11. However many hooks run on units that are not the leader, and in
    whatever order, every one returns, and together they change neither the
    pod spec nor any relation data and fetch no image; the status ends at
    Waiting("Waiting for leadership") as soon as one of the events is bound
    to [set_pod_spec], and is untouched otherwise. *)
Theorem hooks_of_followers_write_nothing (hooks : list (Host * Event)) (w : World) :
  Forall (fun hook => leader (fst hook) = false) hooks ->
  fst (deliver hooks w) = Returns tt /\
  pod_spec (snd (deliver hooks w)) = pod_spec w /\
  relation_data (snd (deliver hooks w)) = relation_data w /\
  fetch_calls (snd (deliver hooks w)) = fetch_calls w /\
  unit_status (snd (deliver hooks w))
    = if existsb (fun hook => runs_set_pod_spec (snd hook)) hooks
      then new_status WaitingStatus "Waiting for leadership"
      else unit_status w.
Proof.
  intros Followers. revert w.
  induction Followers as [|[h ev] rest L _ IH]; intros w.
  - repeat split; reflexivity.
  - rewrite deliver_cons. cbn [fst] in L.
    destruct (emit_not_leader h ev w L) as (R & P & D & F & S).
    destruct (emit h ev w) as [[[]|e] w']; cbn [fst snd] in *; [|discriminate R].
    destruct (IH w') as (R' & P' & D' & F' & S').
    rewrite R', P', D', F', S', P, D, F, S. cbn [existsb snd].
    repeat split; try reflexivity.
    destruct (runs_set_pod_spec ev); cbn [orb]; [|reflexivity].
    by destruct (existsb _ rest).
Qed.

Lemma hooks_of_followers_write_nothing_witness :
  relation_data
    (snd (deliver [(follower_host, SidebarRelationJoined {| relation := 7 |});
                   (follower_host, Install);
                   (follower_host, Unobserved "config-changed")] fresh_world))
  = ∅ /\
  unit_status
    (snd (deliver [(follower_host, SidebarRelationJoined {| relation := 7 |});
                   (follower_host, Install);
                   (follower_host, Unobserved "config-changed")] fresh_world))
  = new_status WaitingStatus "Waiting for leadership".
Proof.
  destruct (hooks_of_followers_write_nothing
              [(follower_host, SidebarRelationJoined {| relation := 7 |});
               (follower_host, Install);
               (follower_host, Unobserved "config-changed")] fresh_world)
    as (_ & _ & D & _ & S).
  { repeat constructor. }
  split; [exact D | exact S].
Defined.

(** What one hook does to the pod spec in force. *)
Lemma emit_pod_spec (h : Host) (ev : Event) (w : World) :
  pod_spec (snd (emit h ev w)) = pod_spec w \/
  exists spec, pod_spec (snd (emit h ev w)) = Some spec /\ port_consistent spec.
Proof.
  assert (pod_spec (snd (set_pod_spec h w)) = pod_spec w \/
          exists spec,
            pod_spec (snd (set_pod_spec h w)) = Some spec /\ port_consistent spec) as Run.
  { run_cases h w; try (left; reflexivity).
    right. eexists. split; [reflexivity|].
    eexists _, _, port. repeat split; reflexivity. }
  destruct ev; cbn [emit]; try exact Run; left;
    unfold_charm; by destruct (leader h).
Qed.

(** X12. The pod spec in force stays consistent over any sequence of
    hooks, on any hosts, whether they return or raise: if it starts absent
    or with a single container whose [--port=] argument and [containerPort]
    come from one configuration value, it ends that way. *)
Theorem pod_spec_stays_port_consistent (hooks : list (Host * Event)) (w : World) :
  (forall spec, pod_spec w = Some spec -> port_consistent spec) ->
  forall spec, pod_spec (snd (deliver hooks w)) = Some spec -> port_consistent spec.
Proof.
  revert w. induction hooks as [|[h ev] rest IH]; intros w Inv; [exact Inv|].
  rewrite deliver_cons.
  assert (forall spec, pod_spec (snd (emit h ev w)) = Some spec -> port_consistent spec)
    as Inv'.
  { destruct (emit_pod_spec h ev w) as [E|(spec' & E & C)]; rewrite E.
    - exact Inv.
    - by intros spec [= <-]. }
  destruct (emit h ev w) as [[[]|e] w']; cbn [snd] in *.
  - by apply IH.
  - exact Inv'.
Qed.

Lemma pod_spec_stays_port_consistent_witness :
  port_consistent (pod_spec_dict sample_host (SInt 8080) (SInt 8080) sample_image).
Proof.
  apply (pod_spec_stays_port_consistent
           [(sample_host, Install);
            (follower_host, LeaderElected);
            (host_without_image, UpgradeCharm);
            (sample_host, SidebarRelationJoined {| relation := 7 |})]
           fresh_world).
  - intros spec [=].
  - reflexivity.
Defined.

Lemma escape_char_plain (c : ascii) :
  plain_char c = true -> escape_char c = String c "".
Proof.
  destruct c as [[] [] [] [] [] [] [] []]; intros H;
    first [discriminate H | reflexivity].
Qed.

Lemma escape_body_plain (s : string) :
  all_chars plain_char s = true -> escape_body s = s.
Proof.
  induction s as [|c s IH]; [reflexivity|]. cbn [all_chars escape_body].
  intros [Hc Hs]%andb_prop. by rewrite (escape_char_plain c Hc), (IH Hs).
Qed.

Lemma string_app_assoc (a b c : string) :
  ((a ++ b) ++ c = a ++ (b ++ c))%string.
Proof.
  induction a as [|x a IH]; [reflexivity|].
  change (String x ((a ++ b) ++ c) = String x (a ++ (b ++ c)))%string.
  by rewrite IH.
Qed.

Lemma string_app_cons (x : ascii) (a b : string) :
  (String x a ++ b = String x (a ++ b))%string.
Proof. reflexivity. Qed.

Lemma string_app_nil (b : string) : ("" ++ b = b)%string.
Proof. reflexivity. Qed.

(** Write a text built with [++] as its characters in a row, with the
    appends pushed to the parts that are not known. *)
Ltac flatten_text :=
  repeat first
    [ rewrite string_app_assoc | rewrite string_app_cons | rewrite string_app_nil ].

(** X13. For an application whose name is made of printable ASCII
    characters other than the double quote and the backslash, the text
    written under [config] on a join is the JSON list with the name copied
    as it is between quotes. *)
Theorem sidebar_text_of_plain_name (h : Host) (event : RelationEvent) (w : World) :
  leader h = true ->
  all_chars plain_char (app_name h) = true ->
  local_bag (snd (_on_sidebar_relation_joined h event w)) (relation event) !! "config"
  = Some
      ("[{" ++ quoted "app" ++ ": " ++ quoted (app_name h) ++ ", "
            ++ quoted "position" ++ ": 5, "
            ++ quoted "type" ++ ": " ++ quoted "item" ++ ", "
            ++ quoted "link" ++ ": " ++ quoted "/katib/" ++ ", "
            ++ quoted "text" ++ ": " ++ quoted "Experiments (AutoML)" ++ ", "
            ++ quoted "icon" ++ ": " ++ quoted "kubeflow:katib" ++ "}]")%string.
Proof.
  intros L Plain. unfold_charm. rewrite L. cbn [negb snd relation_data].
  unfold local_bag at 1. cbn [relation_data]. rewrite lookup_insert_eq.
  cbn [default]. unfold id.
  erewrite lookup_union_Some_l by apply lookup_singleton_eq.
  f_equal. unfold sidebar_item, quoted. cbn. unfold encode_basestring_ascii.
  rewrite (escape_body_plain _ Plain). flatten_text. reflexivity.
Qed.

Lemma sidebar_text_of_plain_name_witness :
  local_bag (snd (_on_sidebar_relation_joined sample_host {| relation := 7 |} fresh_world))
    7%nat !! "config"
  = Some (sidebar_json "katib-ui").
Proof.
  exact (sidebar_text_of_plain_name sample_host {| relation := 7 |} fresh_world
           eq_refl eq_refl).
Defined.







(** X15. The decimal text put after [--port=] reads back as the configured
    integer, so two integer ports give the same argument only when they are
    equal. *)
Theorem port_argument_reads_back (p q : Z) :
  int_of_str (format_scalar (SInt p)) = Some p /\
  (format_scalar (SInt p) = format_scalar (SInt q) -> p = q).
Proof.
  assert (forall z, int_of_str (format_scalar (SInt z)) = Some z) as Back.
  { intros z. unfold int_of_str, format_scalar, str_int.
    rewrite NilZero.isi.
    - cbn. by rewrite DecimalZ.of_to.
    - destruct z; cbn; try discriminate.
      intros [= H]. by apply DecimalPos.Unsigned.to_uint_nonnil in H.
    - destruct z; cbn; try discriminate.
      intros [= H]. by apply DecimalPos.Unsigned.to_uint_nonnil in H. }
  split; [apply Back|].
  intros E. pose proof (Back p) as Bp. rewrite E, Back in Bp. congruence.
Qed.

Lemma port_argument_reads_back_witness :
  int_of_str "8080" = Some 8080 /\ (8080 = 8080).
Proof.
  destruct (port_argument_reads_back 8080 8080) as [Back Inj].
  split; [exact Back | exact (Inj eq_refl)].
Defined.

(** As [not_in_log], for a log whose head is already spelled out. *)
Ltac not_in_tail H :=
  repeat first [ rewrite in_app_iff in H | progress cbn [In] in H ];
  repeat match type of H with
    | _ \/ _ => destruct H as [H|H]
    | False => destruct H
    | In _ (ingress_effects _ _) =>
        apply ingress_effects_send in H; destruct H as (? & ? & ? & ? & H)
    end;
  try discriminate H.

(** X16. Every run of [set_pod_spec] begins by asking whether the unit is
    the leader, and negotiates the interfaces at most once and only on a
    leader; a run that returns ends with a status update, and that status is
    the unit's status afterwards. *)
Theorem run_starts_with_leadership_and_ends_with_status (h : Host) (w : World) :
  (exists rest, effects (set_pod_spec h) w = IsLeader (leader h) :: rest) /\
  (forall answer,
     In (GetInterfaces answer) (effects (set_pod_spec h) w) ->
     leader h = true /\ answer = negotiation h /\
     exists rest,
       effects (set_pod_spec h) w = IsLeader true :: GetInterfaces answer :: rest /\
       forall other, ~ In (GetInterfaces other) rest) /\
  (fst (set_pod_spec h w) = Returns tt ->
   last (effects (set_pod_spec h) w)
   = Some (SetStatus (unit_status (snd (set_pod_spec h w))))).
Proof.
  split; [|split].
  - run_cases h w;
      repeat match goal with H : leader h = _ |- _ => rewrite H; clear H end;
      cbn [app]; eauto.
  - intros answer Hin. run_cases h w; not_in_log Hin; injection Hin as <-.
    all: split; [assumption|]; split; [congruence|].
    all: eexists; split; [cbn [app]; reflexivity|].
    all: intros other Ho; not_in_tail Ho.
  - intros R. run_cases h w; cbn [fst] in R; try discriminate R;
      rewrite ?app_assoc; try (by rewrite last_app); reflexivity.
Qed.

Lemma run_starts_with_leadership_and_ends_with_status_witness :
  last (effects (set_pod_spec host_without_image) fresh_world)
  = Some (SetStatus (new_status BlockedStatus "Missing resource: oci-image")).
Proof.
  exact (proj2 (proj2 (run_starts_with_leadership_and_ends_with_status
                         host_without_image fresh_world)) eq_refl).
Defined.
